(** * The password-strength scorer of [ResturantMenuProject/menu.js]

    The class [RestaurantMenuManager] scores a password in two places:
    [validatePasswordStrength] (the live display, lines 273-306) and
    [calculatePasswordStrength] (the login form handler, lines 639-654).
    Both call [calculateComplexity] (lines 308-346).

    Modelling choices.
    - A password is a [string]: a sequence of 8-bit code units, that is the
      code units U+0000 .. U+00FF of a JavaScript string.  Inside that range
      [toLowerCase], the regular-expression dot and the ignore-case flag are
      modelled exactly.
    - A JavaScript number is a rational [Q]: the literals 0.2, 0.3 and 0.7
      denote the fractions they spell and the four operations are exact.
      The module [Binary64] repeats the three functions with the runtime's
      binary64 numbers; the entries of [results] are the same in both
      (lemma [perRule_binary64]).  Bounds and comparisons are stated on
      the exact model; a statement on the very value of the complexity is
      made on [Binary64].
    - [validatePasswordStrength] ends by handing [results] and [totalScore]
      to [updatePasswordDisplay]; the model returns that pair, and [perRule]
      and [total] name its two components.

    Layout: the runtime primitives ([JS]), the scorer, its binary64 copy,
    the specification's wording of the complexity ([Spec]), the display of
    the strength, the login and review forms, the mobile menu, the dark
    mode and the notifications, then the proofs. *)

From Stdlib Require Import Bool List Ascii String Arith ZArith QArith Qminmax.
From Stdlib Require Import Qabs Qround DecimalString Uint63 Floats Lia Lqa.
Import ListNotations.

Open Scope string_scope.

(** ** The parts of the JavaScript runtime that the scorer uses *)

Module JS.

Definition charCode (c : ascii) : nat := nat_of_ascii c.

Definition inRange (lo hi : nat) (c : ascii) : bool :=
  (lo <=? charCode c)%nat && (charCode c <=? hi)%nat.

(** [String.prototype.toLowerCase] on one code unit below U+0100: the
    letters A-Z and the Latin-1 capitals U+00C0 .. U+00DE (the
    multiplication sign U+00D7 apart) move up by 32. *)
Definition toLowerCaseUnit (c : ascii) : ascii :=
  if inRange 65 90 c || (inRange 192 222 c && negb (charCode c =? 215)%nat)
  then ascii_of_nat (charCode c + 32)
  else c.

Fixpoint toLowerCase (s : string) : string :=
  match s with
  | EmptyString => EmptyString
  | String c s' => String (toLowerCaseUnit c) (toLowerCase s')
  end.

(** [Canonicalize] of a regular expression with the [i] flag and without
    the [u] flag: the code unit is upper-cased when the result is again a
    single code unit.  The upper-case forms of U+00B5 and U+00FF lie
    above U+00FF and are the image of no other code unit below U+0100, so
    the model leaves those two fixed. *)
Definition canonicalize (c : ascii) : ascii :=
  if inRange 97 122 c || (inRange 224 254 c && negb (charCode c =? 247)%nat)
  then ascii_of_nat (charCode c - 32)
  else c.

(** The dot of a regular expression without the [s] flag matches every
    code unit that is not a line terminator (LF and CR below U+0100). *)
Definition isLineTerminator (c : ascii) : bool :=
  (charCode c =? 10)%nat || (charCode c =? 13)%nat.

(** A regular expression is modelled by its matcher at one position: a
    function that says whether the pattern matches a prefix of the rest
    of the input. *)
Definition matcher : Type := string -> bool.

(** A character class such as [[a-z]]. *)
Definition class (member : ascii -> bool) : matcher :=
  fun s => match s with
           | String c _ => member c
           | EmptyString => false
           end.

(** A pattern made of literal characters, such as [/qwerty/]. *)
Fixpoint literal (pat : string) : matcher :=
  fun s => match pat with
           | EmptyString => true
           | String p pat' =>
               match s with
               | String c s' => Ascii.eqb c p && literal pat' s'
               | EmptyString => false
               end
           end.

(** The same under the [i] flag. *)
Fixpoint literal_i (pat : string) : matcher :=
  fun s => match pat with
           | EmptyString => true
           | String p pat' =>
               match s with
               | String c s' =>
                   Ascii.eqb (canonicalize c) (canonicalize p)
                   && literal_i pat' s'
               | EmptyString => false
               end
           end.

(** An alternation [(?:p1|p2|...)]. *)
Definition alt (ms : list matcher) : matcher :=
  fun s => existsb (fun m => m s) ms.

(** A capture of one character by the dot, followed by the
    back-reference to it repeated two or more times. *)
Definition dot_backref_2_or_more : matcher :=
  fun s => match s with
           | String c (String c1 (String c2 _)) =>
               negb (isLineTerminator c) && Ascii.eqb c1 c && Ascii.eqb c2 c
           | _ => false
           end.

(** [RegExp.prototype.test]: the pattern is tried at every position of
    the input, from left to right. *)
Fixpoint test (m : matcher) (s : string) : bool :=
  m s || match s with
         | EmptyString => false
         | String _ s' => test m s'
         end.

Definition Math_min (a b : Q) : Q := Qmin a b.
Definition Math_max (a b : Q) : Q := Qmax a b.

(** [password.length] as a number. *)
Definition length (s : string) : Q := inject_Z (Z.of_nat (String.length s)).

End JS.

(** ** The scorer *)

Record requirement : Type := { weight : Q; message : string }.

(** [this.passwordStrengthConfig.requirements] (lines 10-17); nothing in
    the file writes to it after the constructor. *)
Module requirements.
Definition length : requirement :=
  {| weight := 20; message := "At least 8 characters" |}.
Definition lowercase : requirement :=
  {| weight := 15; message := "One lowercase letter (a-z)" |}.
Definition uppercase : requirement :=
  {| weight := 15; message := "One uppercase letter (A-Z)" |}.
Definition number : requirement :=
  {| weight := 15; message := "One number (0-9)" |}.
Definition special : requirement :=
  {| weight := 15; message := "One special character (!@#$%^&*)" |}.
Definition complexity : requirement :=
  {| weight := 20; message := "Avoid common patterns" |}.
End requirements.

(** The object [results] built by [validatePasswordStrength]. *)
Module results.
Record t : Type := mk {
  length : bool;
  lowercase : bool;
  uppercase : bool;
  number : bool;
  special : bool;
  complexity : bool
}.
End results.

(** The character classes [[a-z]], [[A-Z]], [[0-9]] and [[a-zA-Z]]. *)
Definition lower_a_z : ascii -> bool := JS.inRange 97 122.
Definition upper_A_Z : ascii -> bool := JS.inRange 65 90.
Definition digit_0_9 : ascii -> bool := JS.inRange 48 57.
Definition letter_a_zA_Z (c : ascii) : bool := lower_a_z c || upper_A_Z c.

(** The members of the character class for special characters (lines 297
    and 647), in the order of the source; the double quote is code 34. *)
Definition specialChars : string :=
  "!@#$%^&*()_+-=[]{};':" ++ String "034" "\|,.<>/?".

Definition special_char (c : ascii) : bool :=
  existsb (Ascii.eqb c) (list_ascii_of_string specialChars).

(** The array [commonPatterns], lines 310-317; each entry is a pattern of
    literal characters. *)
Definition commonPatterns : list string :=
  ["123"; "abc"; "qwerty"; "password"; "admin"; "user"].

(** The alternatives of the sequence pattern of line 320. *)
Definition sequentialPatterns : list string :=
  ["abc"; "bcd"; "cde"; "def"; "efg"; "fgh"; "ghi"; "hij"; "ijk"; "jkl";
   "klm"; "lmn"; "mno"; "nop"; "opq"; "pqr"; "qrs"; "rst"; "stu"; "tuv";
   "uvw"; "vwx"; "wxy"; "xyz";
   "012"; "123"; "234"; "345"; "456"; "567"; "678"; "789"].

(** The constant [hasRepeats], line 318: one character captured by the
    dot and then repeated at least twice by the back-reference.  The
    pattern has no [i] flag. *)
Definition hasRepeats (password : string) : bool :=
  JS.test JS.dot_backref_2_or_more password.

(** The constant [hasSequential], lines 319-322, with the [i] flag. *)
Definition hasSequential (password : string) : bool :=
  JS.test (JS.alt (map JS.literal_i sequentialPatterns)) password.

(** The condition of the first [if], lines 325-327: some common pattern
    matches the lower-cased password. *)
Definition hasCommonPattern (password : string) : bool :=
  existsb (fun pattern => JS.test (JS.literal pattern) (JS.toLowerCase password))
          commonPatterns.

Open Scope Q_scope.

(** [calculateComplexity], lines 308-346: the variable [complexity] starts
    at 0 and is updated by seven conditional statements; 0.7 is added in
    the [return]. *)
Definition calculateComplexity (password : string) : Q :=
  let complexity := 0 in
  let complexity :=
    if hasCommonPattern password then complexity - 0.3 else complexity in
  let complexity :=
    if hasRepeats password then complexity - 0.2 else complexity in
  let complexity :=
    if hasSequential password then complexity - 0.2 else complexity in
  let complexity :=
    if JS.test (JS.class lower_a_z) password
       && JS.test (JS.class upper_A_Z) password
    then complexity + 0.2 else complexity in
  let complexity :=
    if JS.test (JS.class digit_0_9) password
       && JS.test (JS.class letter_a_zA_Z) password
    then complexity + 0.2 else complexity in
  let complexity :=
    if (12 <=? String.length password)%nat
    then complexity + 0.3 else complexity in
  let complexity :=
    if (16 <=? String.length password)%nat
    then complexity + 0.2 else complexity in
  JS.Math_max 0 (JS.Math_min 1 (complexity + 0.7)).

(** The constant [lengthScore] of [validatePasswordStrength], lines
    280-283. *)
Definition lengthScore (password : string) : Q :=
  JS.Math_min ((JS.length password / 12) * weight requirements.length)
              (weight requirements.length).

(** [validatePasswordStrength], lines 273-306. *)
Definition validatePasswordStrength (password : string) : results.t * Q :=
  let totalScore := 0 in
  let lengthScore := lengthScore password in
  let r_length := (8 <=? String.length password)%nat in
  let totalScore := totalScore + lengthScore in
  let r_lowercase := JS.test (JS.class lower_a_z) password in
  let totalScore :=
    if r_lowercase then totalScore + weight requirements.lowercase
    else totalScore in
  let r_uppercase := JS.test (JS.class upper_A_Z) password in
  let totalScore :=
    if r_uppercase then totalScore + weight requirements.uppercase
    else totalScore in
  let r_number := JS.test (JS.class digit_0_9) password in
  let totalScore :=
    if r_number then totalScore + weight requirements.number
    else totalScore in
  let r_special := JS.test (JS.class special_char) password in
  let totalScore :=
    if r_special then totalScore + weight requirements.special
    else totalScore in
  let complexityScore := calculateComplexity password in
  let r_complexity := negb (Qle_bool complexityScore 0.7) in
  let totalScore :=
    totalScore + complexityScore * weight requirements.complexity in
  (results.mk r_length r_lowercase r_uppercase r_number r_special r_complexity,
   totalScore).

Definition perRule (password : string) : results.t :=
  fst (validatePasswordStrength password).

Definition total (password : string) : Q :=
  snd (validatePasswordStrength password).

(** [calculatePasswordStrength], lines 639-654, the score that
    [validateLoginForm] compares with 60. *)
Definition calculatePasswordStrength (password : string) : Q :=
  let score := 0 in
  let score :=
    if (8 <=? String.length password)%nat
    then score + weight requirements.length else score in
  let score :=
    if JS.test (JS.class lower_a_z) password
    then score + weight requirements.lowercase else score in
  let score :=
    if JS.test (JS.class upper_A_Z) password
    then score + weight requirements.uppercase else score in
  let score :=
    if JS.test (JS.class digit_0_9) password
    then score + weight requirements.number else score in
  let score :=
    if JS.test (JS.class special_char) password
    then score + weight requirements.special else score in
  let complexityScore := calculateComplexity password in
  let score := score + complexityScore * weight requirements.complexity in
  score.

(** The test of [validateLoginForm], line 628: the form is refused when the
    strength is below 60. *)
Definition loginRejectsPassword (password : string) : bool :=
  negb (Qle_bool 60 (calculatePasswordStrength password)).

(** ** The same functions on binary64 numbers *)

Module Binary64.

Set Warnings "-inexact-float".
Local Open Scope float_scope.

(** A decimal literal denotes the binary64 number nearest to it.  The
    weights of the configuration are converted in the same way, by the
    correctly rounded quotient of numerator and denominator. *)
Definition number (q : Q) : float :=
  PrimFloat.of_uint63 (Uint63.of_Z (Qnum q))
  / PrimFloat.of_uint63 (Uint63.of_Z (Zpos (Qden q))).

(** [Math.min] and [Math.max] on two numbers neither of which is NaN; the
    scorer produces no NaN and no negative zero. *)
Definition Math_min (a b : float) : float := if PrimFloat.ltb b a then b else a.
Definition Math_max (a b : float) : float := if PrimFloat.ltb a b then b else a.

(** [password.length]; a length is below 2^53 and converts exactly. *)
Definition length (s : string) : float :=
  PrimFloat.of_uint63 (Uint63.of_Z (Z.of_nat (String.length s))).

Definition calculateComplexity (password : string) : float :=
  let complexity := 0 in
  let complexity :=
    if hasCommonPattern password then complexity - 0.3 else complexity in
  let complexity :=
    if hasRepeats password then complexity - 0.2 else complexity in
  let complexity :=
    if hasSequential password then complexity - 0.2 else complexity in
  let complexity :=
    if (JS.test (JS.class lower_a_z) password
        && JS.test (JS.class upper_A_Z) password)%bool
    then complexity + 0.2 else complexity in
  let complexity :=
    if (JS.test (JS.class digit_0_9) password
        && JS.test (JS.class letter_a_zA_Z) password)%bool
    then complexity + 0.2 else complexity in
  let complexity :=
    if (12 <=? String.length password)%nat
    then complexity + 0.3 else complexity in
  let complexity :=
    if (16 <=? String.length password)%nat
    then complexity + 0.2 else complexity in
  Math_max 0 (Math_min 1 (complexity + 0.7)).

Definition lengthScore (password : string) : float :=
  Math_min ((length password / 12) * number (weight requirements.length))
           (number (weight requirements.length)).

Definition validatePasswordStrength (password : string) : results.t * float :=
  let totalScore := 0 in
  let lengthScore := lengthScore password in
  let r_length := (8 <=? String.length password)%nat in
  let totalScore := totalScore + lengthScore in
  let r_lowercase := JS.test (JS.class lower_a_z) password in
  let totalScore :=
    if r_lowercase then totalScore + number (weight requirements.lowercase)
    else totalScore in
  let r_uppercase := JS.test (JS.class upper_A_Z) password in
  let totalScore :=
    if r_uppercase then totalScore + number (weight requirements.uppercase)
    else totalScore in
  let r_number := JS.test (JS.class digit_0_9) password in
  let totalScore :=
    if r_number then totalScore + number (weight requirements.number)
    else totalScore in
  let r_special := JS.test (JS.class special_char) password in
  let totalScore :=
    if r_special then totalScore + number (weight requirements.special)
    else totalScore in
  let complexityScore := calculateComplexity password in
  let r_complexity := PrimFloat.ltb 0.7 complexityScore in
  let totalScore :=
    totalScore + complexityScore * number (weight requirements.complexity) in
  (results.mk r_length r_lowercase r_uppercase r_number r_special r_complexity,
   totalScore).

Definition perRule (password : string) : results.t :=
  fst (validatePasswordStrength password).

Definition total (password : string) : float :=
  snd (validatePasswordStrength password).

Definition calculatePasswordStrength (password : string) : float :=
  let score := 0 in
  let score :=
    if (8 <=? String.length password)%nat
    then score + number (weight requirements.length) else score in
  let score :=
    if JS.test (JS.class lower_a_z) password
    then score + number (weight requirements.lowercase) else score in
  let score :=
    if JS.test (JS.class upper_A_Z) password
    then score + number (weight requirements.uppercase) else score in
  let score :=
    if JS.test (JS.class digit_0_9) password
    then score + number (weight requirements.number) else score in
  let score :=
    if JS.test (JS.class special_char) password
    then score + number (weight requirements.special) else score in
  let complexityScore := calculateComplexity password in
  let score := score + complexityScore * number (weight requirements.complexity) in
  score.


End Binary64.

(** ** Auxiliary definitions for the proofs *)

(** A matcher that only reads a prefix keeps matching when the input is
    extended on the right. *)
Definition extends (m : JS.matcher) : Prop :=
  forall s t, m s = true -> m (s ++ t)%string = true.

(** The weight of a class when its test succeeded. *)
Definition award (b : bool) (r : requirement) : Q :=
  if b then weight r else 0.

Definition clamp01 (x : Q) : Q := JS.Math_max 0 (JS.Math_min 1 x).

Definition penalties (password : string) : Q :=
  (if hasCommonPattern password then 0.3 else 0)
  + (if hasRepeats password then 0.2 else 0)
  + (if hasSequential password then 0.2 else 0).

Definition bonuses (password : string) : Q :=
  (if JS.test (JS.class lower_a_z) password
      && JS.test (JS.class upper_A_Z) password then 0.2 else 0)
  + (if JS.test (JS.class digit_0_9) password
        && JS.test (JS.class letter_a_zA_Z) password then 0.2 else 0)
  + (if (12 <=? String.length password)%nat then 0.3 else 0)
  + (if (16 <=? String.length password)%nat then 0.2 else 0).

(** The suffix [s] brings to [p] a character of the class [member] that
    [p] lacks. *)
Definition addsClass (member : ascii -> bool) (p s : string) : Prop :=
  JS.test (JS.class member) p = false
  /\ JS.test (JS.class member) (p ++ s) = true.

Definition addsMissingClass (p s : string) : Prop :=
  addsClass lower_a_z p s \/ addsClass upper_A_Z p s
  \/ addsClass digit_0_9 p s \/ addsClass special_char p s.

Definition twelve_a : string := "aaaaaaaaaaaa".
Definition twelve_spaces : string := "            ".
Definition three_line_feeds : string :=
  String "010" (String "010" (String "010" EmptyString)).

(** The windows of three adjacent characters of a string. *)
Fixpoint windows3 (s : string) : list string :=
  match s with
  | String a ((String b (String c _)) as s') =>
      String a (String b (String c EmptyString)) :: windows3 s'
  | _ => []
  end.

(** ** The complexity as the specification words it *)

Module Spec.

(** [d] occurs in [s] as a run of adjacent characters. *)
Definition Substring (d s : string) : Prop :=
  exists pre post, s = (pre ++ d ++ post)%string.

Definition Occurs (c : ascii) (s : string) : Prop :=
  Substring (String c EmptyString) s.

Definition denylist : list string :=
  ["123"; "abc"; "qwerty"; "password"; "admin"; "user"].

(** The lower-cased password contains a substring of the denylist. *)
Definition ContainsDenylisted (p : string) : Prop :=
  exists d, In d denylist /\ Substring d (JS.toLowerCase p).

Definition thrice (c : ascii) : string :=
  String c (String c (String c EmptyString)).

(** Some character repeats three or more times consecutively. *)
Definition RepeatsThrice (p : string) : Prop :=
  exists c, Substring (thrice c) p.

(** The same for a character that is not a line terminator. *)
Definition RepeatsThriceOnOneLine (p : string) : Prop :=
  exists c, JS.isLineTerminator c = false /\ Substring (thrice c) p.

Definition alphabet : string := "abcdefghijklmnopqrstuvwxyz".
Definition digits : string := "0123456789".

(** Three characters that follow each other in the alphabet or in the
    digits. *)
Definition AscendingRun (t : string) : Prop :=
  String.length t = 3%nat /\ (Substring t alphabet \/ Substring t digits).

(** Such a run appears in the password, case-insensitively. *)
Definition HasAscendingRun (p : string) : Prop :=
  exists t, Substring t p /\ AscendingRun (JS.toLowerCase t).

(** The letters and digits are those that the messages of the
    configuration name: a-z, A-Z and 0-9. *)
Definition Between (lo hi : ascii) (c : ascii) : Prop :=
  (nat_of_ascii lo <= nat_of_ascii c <= nat_of_ascii hi)%nat.

Definition HasLowercase (p : string) : Prop :=
  exists c, Occurs c p /\ Between "a" "z" c.

Definition HasUppercase (p : string) : Prop :=
  exists c, Occurs c p /\ Between "A" "Z" c.

Definition HasDigit (p : string) : Prop :=
  exists c, Occurs c p /\ Between "0" "9" c.

Definition HasLetter (p : string) : Prop :=
  exists c, Occurs c p /\ (Between "a" "z" c \/ Between "A" "Z" c).

(** An adjustment is worth [amount] when its condition holds and nothing
    otherwise. *)
Definition adjustment (applies : Prop) (amount value : Q) : Prop :=
  (applies /\ value == amount) \/ (~ applies /\ value == 0).

Definition clamp (lo hi x : Q) : Q := Qmax lo (Qmin hi x).

(** The complexity of the specification, for a given reading [Repeats] of
    its repetition rule: the baseline 0.7, three penalties, four bonuses,
    each applied on its own condition alone, and one clamp at the end. *)
Definition complexity_with (Repeats : string -> Prop)
                           (p : string) (value : Q) : Prop :=
  exists denied repeated sequential mixedCase digitAndLetter long longer : Q,
    adjustment (ContainsDenylisted p) (- 0.3) denied
    /\ adjustment (Repeats p) (- 0.2) repeated
    /\ adjustment (HasAscendingRun p) (- 0.2) sequential
    /\ adjustment (HasLowercase p /\ HasUppercase p) 0.2 mixedCase
    /\ adjustment (HasDigit p /\ HasLetter p) 0.2 digitAndLetter
    /\ adjustment (12 <= String.length p)%nat 0.3 long
    /\ adjustment (16 <= String.length p)%nat 0.2 longer
    /\ value == clamp 0 1 (0.7 + denied + repeated + sequential + mixedCase
                           + digitAndLetter + long + longer).

Definition complexity : string -> Q -> Prop := complexity_with RepeatsThrice.

Definition complexity_on_one_line : string -> Q -> Prop :=
  complexity_with RepeatsThriceOnOneLine.

End Spec.

(** ** What the handlers show

    The handlers act on the page through [showAlert], [showNotification],
    [showSubtleNotification] and timers.  A handler is modelled by the list
    of the effects it causes, in order; [After ms e] is an effect that a
    timer of [ms] milliseconds causes later.  The texts are those of the
    source; this file holds them in UTF-8 and no statement depends on
    their characters above U+007F. *)

Inductive effect : Type :=
| ShowAlert (message type : string)
| ShowNotification (message type : string)
| ShowSubtleNotification (message type : string)
| ResetReviewForm
| After (ms : nat) (e : effect).

(** [score < 30] and the like on numbers. *)
Definition lessThan (a b : Q) : bool := negb (Qle_bool b a).

(** [Math.round]: the integer nearest to [x], halves going up. *)
Definition Math_round (x : Q) : Z := Qfloor (x + (1 # 2)).

(** The text of a whole number inside a template literal. *)
Definition numberToString (z : Z) : string :=
  NilZero.string_of_int (Z.to_int z).

(** [Array.prototype.join] on an array of strings. *)
Fixpoint join (sep : string) (items : list string) : string :=
  match items with
  | [] => EmptyString
  | x :: rest =>
      match rest with
      | [] => x
      | _ :: _ => (x ++ sep ++ join sep rest)%string
      end
  end.

(** White space and line terminators below U+0100, which
    [String.prototype.trim] removes at both ends: TAB, LF, VT, FF, CR, the
    space and the no-break space. *)
Definition isWhiteSpace (c : ascii) : bool :=
  JS.inRange 9 13 c || (JS.charCode c =? 32)%nat || (JS.charCode c =? 160)%nat.

Fixpoint trimStart (s : string) : string :=
  match s with
  | EmptyString => EmptyString
  | String c s' => if isWhiteSpace c then trimStart s' else s
  end.

Fixpoint trimEnd (s : string) : string :=
  match s with
  | EmptyString => EmptyString
  | String c s' =>
      match trimEnd s' with
      | EmptyString => if isWhiteSpace c then EmptyString
                       else String c EmptyString
      | String _ _ as r => String c r
      end
  end.

Definition trim (s : string) : string := trimEnd (trimStart s).

(** [!x] for [x] a string or [undefined]. *)
Definition falsy (x : option string) : bool :=
  match x with
  | None => true
  | Some s => (String.length s =? 0)%nat
  end.

(** ** The display of the strength *)

(** [getPasswordSuggestions], lines 417-442: the array [suggestions] before
    it is joined. *)
Definition suggestionsArray (password : string) (results : results.t)
  : list string :=
  let suggestions : list string := [] in
  let suggestions :=
    if (String.length password <? 8)%nat
    then (suggestions ++ ["• Make it longer (at least 8 characters)"])%list
    else suggestions in
  let suggestions :=
    if negb (results.uppercase results)
    then (suggestions ++ ["• Add uppercase letters (A-Z)"])%list
    else suggestions in
  let suggestions :=
    if negb (results.lowercase results)
    then (suggestions ++ ["• Add lowercase letters (a-z)"])%list
    else suggestions in
  let suggestions :=
    if negb (results.number results)
    then (suggestions ++ ["• Include numbers (0-9)"])%list
    else suggestions in
  let suggestions :=
    if negb (results.special results)
    then (suggestions ++ ["• Add special characters (!@#$%^&*)"])%list
    else suggestions in
  let suggestions :=
    if negb (results.complexity results)
    then (suggestions ++ ["• Avoid common patterns and repetitive characters"])%list
    else suggestions in
  suggestions.

Definition greatPassword : string := "🎉 Great password!".

Definition getPasswordSuggestions (password : string) (results : results.t)
  : string :=
  let suggestions := suggestionsArray password results in
  if (0 <? List.length suggestions)%nat
  then ("<strong>💡 Suggestions:</strong><br>" ++ join "<br>" suggestions)%string
  else greatPassword.

(** The variables [color], [bgColor], [textColor] and [strength] of
    [updatePasswordDisplay], lines 359-385. *)
Record strengthStyle : Type := {
  color : string;
  bgColor : string;
  textColor : string;
  strength : string
}.

Definition strengthStyleOf (score : Q) : strengthStyle :=
  if lessThan score 30 then
    {| color := "#ff4757";
       bgColor := "linear-gradient(90deg, #ff4757, #ff6b6b)";
       textColor := "#ff4757";
       strength := "Very Weak" |}
  else if lessThan score 50 then
    {| color := "#ffa502";
       bgColor := "linear-gradient(90deg, #ffa502, #ff9f43)";
       textColor := "#ffa502";
       strength := "Weak" |}
  else if lessThan score 70 then
    {| color := "#ff6348";
       bgColor := "linear-gradient(90deg, #ff6348, #ff7675)";
       textColor := "#ff6348";
       strength := "Fair" |}
  else if lessThan score 85 then
    {| color := "#1dd1a1";
       bgColor := "linear-gradient(90deg, #1dd1a1, #00d2d3)";
       textColor := "#1dd1a1";
       strength := "Good" |}
  else
    {| color := "#2ed573";
       bgColor := "linear-gradient(90deg, #2ed573, #1dd1a1)";
       textColor := "#2ed573";
       strength := "Excellent" |}.

(** What [updatePasswordDisplay] writes to the page: the width of the bar
    in percent, its background, the colour and the text of the strength
    line, the mark of each rule of the checklist, and the content of the
    suggestions panel when it is displayed ([None] when it is hidden). *)
Record passwordDisplay : Type := {
  barWidth : Q;
  barBackground : string;
  strengthTextColor : string;
  strengthTextContent : string;
  ruleIsValid : results.t;
  suggestionsPanel : option string
}.

(** [updatePasswordDisplay], lines 348-415. *)
Definition updatePasswordDisplay (results : results.t) (score : Q)
                                 (password : string) : passwordDisplay :=
  let percentage := JS.Math_min score 100 in
  let style := strengthStyleOf score in
  {| barWidth := percentage;
     barBackground := bgColor style;
     strengthTextColor := textColor style;
     strengthTextContent :=
       ("Password Strength: " ++ strength style ++ " ("
        ++ numberToString (Math_round percentage) ++ "%)")%string;
     ruleIsValid := results;
     suggestionsPanel :=
       if lessThan score 70
       then Some (getPasswordSuggestions password results)
       else None |}.

(** The page after [validatePasswordStrength], whose last statement hands
    its results and its total to [updatePasswordDisplay] (line 305). *)
Definition displayedStrength (password : string) : passwordDisplay :=
  updatePasswordDisplay (perRule password) (total password) password.

(** The number of character classes that a password has. *)
Definition classCount (password : string) : nat :=
  (if JS.test (JS.class lower_a_z) password then 1 else 0)
  + (if JS.test (JS.class upper_A_Z) password then 1 else 0)
  + (if JS.test (JS.class digit_0_9) password then 1 else 0)
  + (if JS.test (JS.class special_char) password then 1 else 0).

(** The number of rules of the checklist that are not met. *)
Definition unmetRules (results : results.t) : nat :=
  (if results.length results then 0 else 1)
  + (if results.lowercase results then 0 else 1)
  + (if results.uppercase results then 0 else 1)
  + (if results.number results then 0 else 1)
  + (if results.special results then 0 else 1)
  + (if results.complexity results then 0 else 1).

(** ** The login form *)

(** The object that [validateLoginForm] returns. *)
Module validation.
Record t : Type := { isValid : bool; message : option string }.
End validation.

Definition fillInAllFields : string :=
  "Please fill in all fields to login! 📝".

Definition usernameTooShort : string :=
  "Username must be at least 3 characters long! 👤".

Definition passwordTooWeak : string :=
  "Please create a stronger password that meets security requirements! 🔐"
  ++ String "010" "Your password strength is too low for secure login.".

(** [validateLoginForm], lines 612-637; a field that the form does not
    have is [None]. *)
Definition validateLoginForm (username password dob : option string)
  : validation.t :=
  match username, password, dob with
  | Some u, Some p, Some d =>
      if falsy username || falsy password || falsy dob then
        {| validation.isValid := false;
           validation.message := Some fillInAllFields |}
      else if (String.length u <? 3)%nat then
        {| validation.isValid := false;
           validation.message := Some usernameTooShort |}
      else
        let passwordStrength := calculatePasswordStrength p in
        if lessThan passwordStrength 60 then
          {| validation.isValid := false;
             validation.message := Some passwordTooWeak |}
        else {| validation.isValid := true; validation.message := None |}
  | _, _, _ => {| validation.isValid := false;
           validation.message := Some fillInAllFields |}
  end.

(** A value inside a template literal. *)
Definition interpolate (x : option string) : string :=
  match x with
  | Some s => s
  | None => "undefined"
  end.

(** The submit handler of [setupLoginForm], lines 582-609: user name and
    password are trimmed before they are validated. *)
Definition loginSubmit (username pwd dob : option string) : list effect :=
  let password := pwd in
  let validationResults :=
    validateLoginForm (option_map trim username) (option_map trim password)
                      dob in
  if negb (validation.isValid validationResults) then
    [ShowAlert (interpolate (validation.message validationResults)) "error"]
  else
    [ShowAlert ("🎉 Welcome " ++ interpolate username
                ++ "! Login successful!") "success";
     After 1500
       (ShowNotification "Redirecting to your personalized menu... 🍽️"
                         "info")].

(** ** The review form *)

Record reviewFeedback : Type := {
  feedbackHTML : string;
  feedbackColor : string;
  feedbackBorderColor : string;
  textareaBorderColor : string;
  textareaBoxShadow : string;
  feedbackEffects : list effect
}.

(** [updateReviewFeedback], lines 781-824, for the text [value] of the
    text area. *)
Definition updateReviewFeedback (value : string) : reviewFeedback :=
  let length := String.length (trim value) in
  let shown := numberToString (Z.of_nat length) in
  let '(message, color, effects) :=
    if (length =? 0)%nat then
      ("💭 Share your experience with us...", "#999", [])
    else if (length <? 10)%nat then
      ("📝 Keep writing... " ++ numberToString (10 - Z.of_nat length)
       ++ " more characters needed for a meaningful review",
       "#ff6b6b", [])
    else if (10 <=? length)%nat && (length <=? 50)%nat then
      ("👍 Good start! " ++ shown
       ++ "/500 characters. Consider adding more details about your experience.",
       "#feca57",
       [After 1000
          (ShowSubtleNotification "Great start! Keep sharing your thoughts 💭"
                                  "info")])
    else if (50 <? length)%nat && (length <=? 150)%nat then
      ("🌟 Excellent review! " ++ shown
       ++ "/500 characters. Your feedback is valuable!",
       "#48dbfb", [])
    else
      ("🎉 Comprehensive review! " ++ shown
       ++ "/500 characters. Thank you for the detailed feedback!",
       "#2ed573", [])
  in
  {| feedbackHTML := message;
     feedbackColor := color;
     feedbackBorderColor := color ++ "40";
     textareaBorderColor := if (10 <=? length)%nat then "#2ed573" else "#ddd";
     textareaBoxShadow :=
       if (10 <=? length)%nat then "0 0 0 2px rgba(46, 213, 115, 0.1)"
       else "none";
     feedbackEffects := effects |}.

(** [handleReviewSubmit], lines 826-869; [None] when the page has no text
    area. *)
Definition handleReviewSubmit (reviewTextarea : option string) : list effect :=
  let reviewText :=
    match reviewTextarea with
    | Some value => trim value
    | None => EmptyString
    end in
  if (String.length reviewText =? 0)%nat then
    [ShowAlert "Please share your valuable review with us! 💭" "error"]
  else if (String.length reviewText <? 10)%nat then
    [ShowAlert
       "Please write a more detailed review (at least 10 characters) 📝"
       "error"]
  else
    let reviewSummary :=
      "🌟 Thank you for your amazing review!" ++ String "010" (String "010"
      (String "034" (reviewText ++ String "034" (String "010" (String "010"
      ("🙏 Your feedback helps us serve better food!" ++ String "010"
      ("⭐ Review length: "
       ++ numberToString (Z.of_nat (String.length reviewText))
       ++ " characters"))))))) in
    ShowAlert reviewSummary "success"
    :: match reviewTextarea with
       | Some _ =>
           [After 2000 ResetReviewForm;
            After 2000
              (ShowNotification
                 "Review submitted! We truly appreciate your feedback! 💝"
                 "success")]
       | None => []
       end.

(** Every character of [s] is white space. *)
Definition allWhiteSpace (s : string) : bool :=
  forallb isWhiteSpace (list_ascii_of_string s).

(** No character of [s] is white space. *)
Definition noWhiteSpace (s : string) : bool :=
  forallb (fun c => negb (isWhiteSpace c)) (list_ascii_of_string s).

(** The handler ends in the alert of a success. *)
Definition succeeds (effects : list effect) : bool :=
  match effects with
  | ShowAlert _ type :: _ => String.eqb type "success"
  | _ => false
  end.

(** ** The mobile menu *)

(** What the handlers of the mobile menu read and write: the classes
    [show] and [hidden] of the menu and its transition, the text and the
    two attributes of the button, and the overflow of the body. *)
Record menuPage : Type := {
  menuShow : bool;
  menuHidden : bool;
  menuTransition : string;
  buttonText : string;
  buttonAriaLabel : option string;
  buttonAriaExpanded : option string;
  bodyOverflow : string
}.

(** [closeMobileMenu], lines 132-139. *)
Definition closeMobileMenu (page : menuPage) : menuPage :=
  {| menuShow := false;
     menuHidden := true;
     menuTransition := menuTransition page;
     buttonText := "☰";
     buttonAriaLabel := Some "Open menu";
     buttonAriaExpanded := Some "false";
     bodyOverflow := "" |}.

(** The click handler of the menu button, lines 87-107. *)
Definition clickMenuButton (page : menuPage) : menuPage :=
  let isMenuVisible := menuShow page in
  if negb isMenuVisible then
    {| menuShow := true;
       menuHidden := false;
       menuTransition := "all 0.4s cubic-bezier(0.4, 0, 0.2, 1)";
       buttonText := "✕";
       buttonAriaLabel := Some "Close menu";
       buttonAriaExpanded := Some "true";
       bodyOverflow := "hidden" |}
  else
    {| menuShow := false;
       menuHidden := true;
       menuTransition := "all 0.4s cubic-bezier(0.4, 0, 0.2, 1)";
       buttonText := "☰";
       buttonAriaLabel := Some "Open menu";
       buttonAriaExpanded := Some "false";
       bodyOverflow := "" |}.

(** The events that reach the handlers of the menu: a click on the button,
    on a link of the menu, elsewhere inside the menu, outside of menu and
    button, and the Escape key (lines 87-129 and 1300-1308).  A click on
    the button or inside the menu is no outside click for the handler of
    the document. *)
Inductive menuEvent : Type :=
| ClickMenuButton
| ClickMenuLink
| ClickInsideMenu
| ClickOutsideMenu
| PressEscape.

Definition menuStep (page : menuPage) (e : menuEvent) : menuPage :=
  match e with
  | ClickMenuButton => clickMenuButton page
  | ClickMenuLink => closeMobileMenu page
  | ClickInsideMenu => page
  | ClickOutsideMenu => if menuShow page then closeMobileMenu page else page
  | PressEscape => if menuShow page then closeMobileMenu page else page
  end.

Definition menuRun (events : list menuEvent) (page : menuPage) : menuPage :=
  fold_left menuStep events page.

(** The fields of the page agree with each other on whether the menu is
    open. *)
Definition menuConsistent (page : menuPage) : Prop :=
  menuHidden page = negb (menuShow page)
  /\ buttonText page = (if menuShow page then "✕" else "☰")
  /\ buttonAriaLabel page
     = Some (if menuShow page then "Close menu" else "Open menu")
  /\ buttonAriaExpanded page = Some (if menuShow page then "true" else "false")
  /\ bodyOverflow page = (if menuShow page then "hidden" else "").

(** ** The dark mode *)

(** What the handlers of the dark mode read and write: the item [theme] of
    the local storage, the class [dark-mode] of the body, and the state of
    the check box ([None] when the page has no such box). *)
Record themePage : Type := {
  storedTheme : option string;
  bodyDark : bool;
  toggleChecked : option bool
}.

(** The constant [savedTheme], lines 41-45; [prefersDark] is the answer
    of the media query, [None] when the browser has no [matchMedia]. *)
Definition savedTheme (page : themePage) (prefersDark : option bool) : string :=
  if falsy (storedTheme page)
  then match prefersDark with
       | Some true => "dark"
       | _ => "light"
       end
  else interpolate (storedTheme page).

(** The part of [setupDarkMode] that runs when the page loads, lines
    37-50. *)
Definition setupDarkMode (prefersDark : option bool) (page : themePage)
  : themePage :=
  if String.eqb (savedTheme page prefersDark) "dark" then
    {| storedTheme := storedTheme page;
       bodyDark := true;
       toggleChecked := option_map (fun _ => true) (toggleChecked page) |}
  else page.

(** The events after the load: the user sets the check box to [isDark]
    (lines 53-66), or the system theme changes to dark or to light
    (lines 69-76). *)
Inductive themeEvent : Type :=
| ToggleChange (isDark : bool)
| SystemChange (matches : bool).

Definition themeStep (page : themePage) (e : themeEvent) : themePage :=
  match e with
  | ToggleChange isDark =>
      match toggleChecked page with
      | None => page
      | Some _ =>
          {| storedTheme := Some (if isDark then "dark" else "light");
             bodyDark := isDark;
             toggleChecked := Some isDark |}
      end
  | SystemChange matches =>
      if falsy (storedTheme page) then
        {| storedTheme := storedTheme page;
           bodyDark := matches;
           toggleChecked := option_map (fun _ => matches) (toggleChecked page) |}
      else page
  end.

(** The notification that the handler of the check box shows, lines 60
    and 64. *)
Definition toggleNotification (isDark : bool) : effect :=
  if isDark then ShowNotification "Dark mode enabled! 🌙" "info"
  else ShowNotification "Light mode enabled! ☀️" "info".

Definition themeRun (events : list themeEvent) (page : themePage) : themePage :=
  fold_left themeStep events page.

(** The choice that the user made last in [events], [isDark] when there is
    none. *)
Fixpoint lastChoice (isDark : bool) (events : list themeEvent) : bool :=
  match events with
  | [] => isDark
  | ToggleChange d :: rest => lastChoice d rest
  | SystemChange _ :: rest => lastChoice isDark rest
  end.

(** ** The subtle notifications *)

(** An element that [showSubtleNotification] appended to the body. *)
Record notification : Type := {
  nodeId : nat;
  nodeMessage : string;
  nodeType : string
}.

(** The set [this.notifications], the notifications that are in the body,
    and the timers that will remove them; [nextId] numbers the elements. *)
Record notifierState : Type := {
  notifications : list string;
  bodyNotifications : list notification;
  pendingRemovals : list (nat * string);
  nextId : nat
}.

(** The state that the constructor leaves, line 6. *)
Definition notifierStart : notifierState :=
  {| notifications := [];
     bodyNotifications := [];
     pendingRemovals := [];
     nextId := 0 |}.

Definition Set_has (m : string) (s : list string) : bool :=
  existsb (String.eqb m) s.

Definition Set_add (m : string) (s : list string) : list string :=
  if Set_has m s then s else (s ++ [m])%list.

Definition Set_delete (m : string) (s : list string) : list string :=
  filter (fun x => negb (String.eqb m x)) s.

(** [showSubtleNotification], lines 975-1030. *)
Definition showSubtleNotification (message type : string) (s : notifierState)
  : notifierState :=
  if Set_has message (notifications s) then s
  else
    {| notifications := Set_add message (notifications s);
       bodyNotifications :=
         (bodyNotifications s
          ++ [{| nodeId := nextId s; nodeMessage := message;
                 nodeType := type |}])%list;
       pendingRemovals := (pendingRemovals s ++ [(nextId s, message)])%list;
       nextId := S (nextId s) |}.

(** The inner timer of a notification, lines 1023-1028: the element leaves
    the body and its message leaves the set. *)
Definition removeNotification (id : nat) (message : string) (s : notifierState)
  : notifierState :=
  {| notifications := Set_delete message (notifications s);
     bodyNotifications :=
       filter (fun n => negb (nodeId n =? id)%nat) (bodyNotifications s);
     pendingRemovals :=
       filter (fun t => negb (fst t =? id)%nat) (pendingRemovals s);
     nextId := nextId s |}.

Inductive notifierEvent : Type :=
| Show (message type : string)
| TimerFires (id : nat).

(** A timer fires only while it is pending. *)
Definition notifierStep (s : notifierState) (e : notifierEvent) : notifierState :=
  match e with
  | Show message type => showSubtleNotification message type s
  | TimerFires id =>
      match find (fun t => (fst t =? id)%nat) (pendingRemovals s) with
      | Some (_, message) => removeNotification id message s
      | None => s
      end
  end.

Definition notifierRun (events : list notifierEvent) : notifierState :=
  fold_left notifierStep events notifierStart.

(** The messages of the notifications that are in the body. *)
Definition visibleMessages (s : notifierState) : list string :=
  map nodeMessage (bodyNotifications s).

(** The page after the user has chosen: the stored theme, the class of
    the body and the check box say the same. *)
Definition themeChosen (choice : bool) (page : themePage) : Prop :=
  storedTheme page = Some (if choice then "dark" else "light")
  /\ bodyDark page = choice
  /\ toggleChecked page = Some choice.

(** The set holds the messages of the notifications that are in the body,
    one timer is pending for each of them, and neither two messages nor
    two identifiers are equal. *)
Definition notifierInvariant (s : notifierState) : Prop :=
  notifications s = visibleMessages s
  /\ pendingRemovals s
     = map (fun n => (nodeId n, nodeMessage n)) (bodyNotifications s)
  /\ NoDup (visibleMessages s)
  /\ NoDup (map nodeId (bodyNotifications s))
  /\ (forall n, In n (bodyNotifications s) -> (nodeId n < nextId s)%nat).

(** ** The complexity in the numbers of the runtime *)


(** The letters A-Z turned into a-z, every other character kept. *)
Definition asciiLowerUnit (c : ascii) : ascii :=
  if JS.inRange 65 90 c then ascii_of_nat (JS.charCode c + 32) else c.

Fixpoint asciiLower (s : string) : string :=
  match s with
  | EmptyString => EmptyString
  | String c s' => String (asciiLowerUnit c) (asciiLower s')
  end.

(** What the two scorers have in common: the weights of the classes that
    are present and the complexity times its weight. *)
Definition sharedTerms (password : string) : Q :=
  award (JS.test (JS.class lower_a_z) password) requirements.lowercase
  + award (JS.test (JS.class upper_A_Z) password) requirements.uppercase
  + award (JS.test (JS.class digit_0_9) password) requirements.number
  + award (JS.test (JS.class special_char) password) requirements.special
  + calculateComplexity password * weight requirements.complexity.

(** The advice that [getPasswordSuggestions] gives when [met] is false. *)
Definition adviceUnless (met : bool) (advice : string) : list string :=
  if met then [] else [advice].

(** The complexity of the specification in binary64: the adjustments are
    added to 0 in the order of the code, the baseline 0.7 comes last, and
    the sum is clamped once. *)
Module SpecBinary64.

Set Warnings "-inexact-float".
Local Open Scope float_scope.

Definition adjustment (applies : Prop) (amount value : float) : Prop :=
  (applies /\ value = amount) \/ (~ applies /\ value = 0).

Definition clamp (lo hi x : float) : float :=
  Binary64.Math_max lo (Binary64.Math_min hi x).

Definition complexity (p : string) (value : float) : Prop :=
  exists denied repeated sequential mixedCase digitAndLetter long longer
         : float,
    adjustment (Spec.ContainsDenylisted p) (- 0.3) denied
    /\ adjustment (Spec.RepeatsThrice p) (- 0.2) repeated
    /\ adjustment (Spec.HasAscendingRun p) (- 0.2) sequential
    /\ adjustment (Spec.HasLowercase p /\ Spec.HasUppercase p) 0.2 mixedCase
    /\ adjustment (Spec.HasDigit p /\ Spec.HasLetter p) 0.2 digitAndLetter
    /\ adjustment (12 <= String.length p)%nat 0.3 long
    /\ adjustment (16 <= String.length p)%nat 0.2 longer
    /\ value = clamp 0 1 (0 + denied + repeated + sequential + mixedCase
                          + digitAndLetter + long + longer + 0.7).

End SpecBinary64.

(** ** Strings and the matchers *)

Section Matchers.

Lemma append_nil_r (s : string) : (s ++ "")%string = s.
Proof. induction s as [|c s IH]; simpl; [reflexivity | now rewrite IH]. Qed.

Lemma append_assoc (s t u : string) :
  ((s ++ t) ++ u)%string = (s ++ (t ++ u))%string.
Proof. induction s as [|c s IH]; simpl; [reflexivity | now rewrite IH]. Qed.

Lemma length_append (s t : string) :
  String.length (s ++ t) = (String.length s + String.length t)%nat.
Proof. induction s as [|c s IH]; simpl; [reflexivity | now rewrite IH]. Qed.

(** [test] succeeds exactly when the matcher succeeds on some suffix. *)
Lemma test_iff (m : JS.matcher) (s : string) :
  JS.test m s = true <->
  exists pre suf, s = (pre ++ suf)%string /\ m suf = true.
Proof.
  induction s as [|c s IH]; simpl.
  - rewrite orb_false_r. split.
    + intros H. now exists "", "".
    + intros (pre & suf & E & H). destruct pre; [|discriminate].
      simpl in E. now subst suf.
  - rewrite orb_true_iff, IH. split.
    + intros [H | (pre & suf & E & H)].
      * now exists "", (String c s).
      * exists (String c pre), suf. now rewrite E.
    + intros (pre & suf & E & H). destruct pre as [|c' pre]; simpl in E.
      * left. now subst suf.
      * right. injection E as _ E. now exists pre, suf.
Qed.

Lemma literal_iff (pat s : string) :
  JS.literal pat s = true <-> exists post, s = (pat ++ post)%string.
Proof.
  revert s. induction pat as [|p pat IH]; intros s; simpl.
  - split; [now exists s | reflexivity].
  - destruct s as [|c s].
    + split; [discriminate | intros (post & E); discriminate].
    + rewrite andb_true_iff, IH, Ascii.eqb_eq. split.
      * intros (-> & post & ->). now exists post.
      * intros (post & E). injection E as -> ->. split; [reflexivity | now exists post].
Qed.

Lemma class_iff (member : ascii -> bool) (s : string) :
  JS.class member s = true <->
  exists c post, s = String c post /\ member c = true.
Proof.
  destruct s as [|c s]; simpl.
  - split; [discriminate | intros (c & post & E & _); discriminate].
  - split.
    + intros H. now exists c, s.
    + intros (c' & post & E & H). now injection E as -> ->.
Qed.

Lemma class_extends (member : ascii -> bool) : extends (JS.class member).
Proof. intros [|c s] t; simpl; [discriminate | trivial]. Qed.

Lemma test_append (m : JS.matcher) (p s : string) :
  extends m -> JS.test m p = true -> JS.test m (p ++ s) = true.
Proof.
  intros Hm. rewrite !test_iff. intros (pre & suf & -> & H).
  exists pre, (suf ++ s)%string. split; [apply append_assoc | now apply Hm].
Qed.

Lemma test_class_append (member : ascii -> bool) (p s : string) :
  JS.test (JS.class member) p = true ->
  JS.test (JS.class member) (p ++ s) = true.
Proof. apply test_append, class_extends. Qed.

End Matchers.

(** ** Arithmetic of the two scorers *)

Section Arithmetic.

Lemma clamp01_proper (x y : Q) : x == y -> clamp01 x == clamp01 y.
Proof. intros E. unfold clamp01, JS.Math_max, JS.Math_min. now rewrite E. Qed.

Lemma clamp01_bounds (x : Q) : 0 <= clamp01 x <= 1.
Proof.
  unfold clamp01, JS.Math_max, JS.Math_min. split.
  - apply Q.le_max_l.
  - apply Q.max_lub; [lra | apply Q.le_min_l].
Qed.

Lemma clamp01_cases (x : Q) :
  (x <= 0 /\ clamp01 x == 0) \/ (0 <= x <= 1 /\ clamp01 x == x)
  \/ (1 <= x /\ clamp01 x == 1).
Proof.
  unfold clamp01, JS.Math_max, JS.Math_min.
  destruct (Q.min_spec 1 x) as [[H1 E1] | [H1 E1]];
    destruct (Q.max_spec 0 (Qmin 1 x)) as [[H2 E2] | [H2 E2]];
    rewrite E2; rewrite ?E1 in *; try rewrite E1 in H2.
  - right; right. split; lra.
  - lra.
  - right; left. split; lra.
  - left. split; lra.
Qed.

Lemma calculateComplexity_eq (password : string) :
  calculateComplexity password
  == clamp01 (0.7 - penalties password + bonuses password).
Proof.
  unfold calculateComplexity, penalties, bonuses.
  fold (clamp01 (0 + 0.7)).
  destruct (hasCommonPattern password), (hasRepeats password),
    (hasSequential password),
    (JS.test (JS.class lower_a_z) password
     && JS.test (JS.class upper_A_Z) password),
    (JS.test (JS.class digit_0_9) password
     && JS.test (JS.class letter_a_zA_Z) password),
    (12 <=? String.length password)%nat,
    (16 <=? String.length password)%nat;
    cbv zeta; apply clamp01_proper; ring.
Qed.
End Arithmetic.

Section Totals.

Lemma calculateComplexity_bounds (password : string) :
  0 <= calculateComplexity password <= 1.
Proof.
  pose proof (clamp01_bounds (0.7 - penalties password + bonuses password)) as H.
  now rewrite <- calculateComplexity_eq in H.
Qed.

Lemma JS_length_nonneg (password : string) : 0 <= JS.length password.
Proof.
  unfold JS.length. change 0 with (inject_Z 0).
  rewrite <- Zle_Qle. apply Nat2Z.is_nonneg.
Qed.

Lemma JS_length_le (p q : string) :
  (String.length p <= String.length q)%nat -> JS.length p <= JS.length q.
Proof.
  intros H. unfold JS.length. rewrite <- Zle_Qle. now apply Nat2Z.inj_le.
Qed.

Lemma JS_length_lt (p : string) (n : nat) :
  (String.length p < n)%nat -> JS.length p < inject_Z (Z.of_nat n).
Proof.
  intros H. unfold JS.length. rewrite <- Zlt_Qlt. now apply Nat2Z.inj_lt.
Qed.

Lemma JS_length_ge (p : string) (n : nat) :
  (n <= String.length p)%nat -> inject_Z (Z.of_nat n) <= JS.length p.
Proof.
  intros H. unfold JS.length. rewrite <- Zle_Qle. now apply Nat2Z.inj_le.
Qed.

(** The length term is the ramp [20 * length / 12], cut at 20. *)
Lemma lengthScore_cases (password : string) :
  (JS.length password < 12
   /\ lengthScore password == JS.length password * (5 # 3))
  \/ (12 <= JS.length password /\ lengthScore password == 20).
Proof.
  unfold lengthScore, JS.Math_min. cbn [weight requirements.length].
  assert (E : JS.length password / 12 * 20 == JS.length password * (5 # 3))
    by (field).
  destruct (Q.min_spec (JS.length password / 12 * 20) 20) as [[H ->] | [H ->]];
    rewrite E in *; [left | right]; split; try reflexivity; lra.
Qed.

Lemma lengthScore_bounds (password : string) :
  0 <= lengthScore password <= 20.
Proof.
  pose proof (JS_length_nonneg password).
  destruct (lengthScore_cases password) as [[H1 ->] | [H1 ->]]; lra.
Qed.

Lemma lengthScore_mono (p q : string) :
  (String.length p <= String.length q)%nat -> lengthScore p <= lengthScore q.
Proof.
  intros H. apply JS_length_le in H.
  destruct (lengthScore_cases p) as [[H1 ->] | [H1 ->]];
    destruct (lengthScore_cases q) as [[H2 ->] | [H2 ->]]; lra.
Qed.

Lemma total_eq (password : string) :
  total password
  == lengthScore password
     + award (JS.test (JS.class lower_a_z) password) requirements.lowercase
     + award (JS.test (JS.class upper_A_Z) password) requirements.uppercase
     + award (JS.test (JS.class digit_0_9) password) requirements.number
     + award (JS.test (JS.class special_char) password) requirements.special
     + calculateComplexity password * 20.
Proof.
  unfold total, validatePasswordStrength, award. cbv zeta. cbn [snd].
  destruct (JS.test (JS.class lower_a_z) password),
    (JS.test (JS.class upper_A_Z) password),
    (JS.test (JS.class digit_0_9) password),
    (JS.test (JS.class special_char) password);
    cbn [weight requirements.lowercase requirements.uppercase
         requirements.number requirements.special requirements.complexity];
    ring.
Qed.

Lemma calculatePasswordStrength_eq (password : string) :
  calculatePasswordStrength password
  == award (8 <=? String.length password)%nat requirements.length
     + award (JS.test (JS.class lower_a_z) password) requirements.lowercase
     + award (JS.test (JS.class upper_A_Z) password) requirements.uppercase
     + award (JS.test (JS.class digit_0_9) password) requirements.number
     + award (JS.test (JS.class special_char) password) requirements.special
     + calculateComplexity password * 20.
Proof.
  unfold calculatePasswordStrength, award. cbv zeta.
  destruct (8 <=? String.length password)%nat,
    (JS.test (JS.class lower_a_z) password),
    (JS.test (JS.class upper_A_Z) password),
    (JS.test (JS.class digit_0_9) password),
    (JS.test (JS.class special_char) password);
    cbn [weight requirements.length requirements.lowercase
         requirements.uppercase requirements.number requirements.special
         requirements.complexity];
    ring.
Qed.

Lemma award_bounds (b : bool) (r : requirement) :
  0 <= weight r -> 0 <= award b r <= weight r.
Proof. intros H. destruct b; simpl; lra. Qed.

Lemma award_mono (b b' : bool) (r : requirement) :
  0 <= weight r -> (b = true -> b' = true) -> award b r <= award b' r.
Proof.
  intros H Hb. destruct b; simpl.
  - rewrite (Hb eq_refl). simpl. lra.
  - destruct b'; simpl; lra.
Qed.

Lemma award_gain (b b' : bool) (r : requirement) :
  b = false -> b' = true -> award b' r == award b r + weight r.
Proof. intros -> ->. simpl. ring. Qed.

(** C1: for every password the total of the display scorer lies between 0
    and 100. *)
Theorem total_between_0_and_100 (password : string) :
  0 <= total password <= 100.
Proof.
  rewrite total_eq.
  pose proof (lengthScore_bounds password) as HL.
  pose proof (calculateComplexity_bounds password) as HC.
  pose proof (award_bounds (JS.test (JS.class lower_a_z) password)
                requirements.lowercase) as H1.
  pose proof (award_bounds (JS.test (JS.class upper_A_Z) password)
                requirements.uppercase) as H2.
  pose proof (award_bounds (JS.test (JS.class digit_0_9) password)
                requirements.number) as H3.
  pose proof (award_bounds (JS.test (JS.class special_char) password)
                requirements.special) as H4.
  cbn [weight requirements.lowercase requirements.uppercase
       requirements.number requirements.special] in H1, H2, H3, H4.
  lra.
Qed.

End Totals.

Section TwoScorers.

Lemma leb_award_length (password : string) :
  ((String.length password < 8)%nat
   /\ award (8 <=? String.length password)%nat requirements.length == 0)
  \/ ((8 <= String.length password)%nat
      /\ award (8 <=? String.length password)%nat requirements.length == 20).
Proof.
  destruct (Nat.leb_spec 8 (String.length password)); [right | left];
    split; simpl; trivial; reflexivity.
Qed.

(** The two scorers differ by their length terms only. *)
Lemma scorers_differ_by_length_term (password : string) :
  calculatePasswordStrength password - total password
  == award (8 <=? String.length password)%nat requirements.length
     - lengthScore password.
Proof. rewrite calculatePasswordStrength_eq, total_eq. ring. Qed.

(** C2, as stated, fails: for the password [a] the login handler computes
    29 and the display scorer 92/3. *)
Lemma scorers_disagree_on_a :
  ~ (calculatePasswordStrength "a" == total "a").
Proof. vm_compute. discriminate. Qed.

(** The two totals are equal exactly for the empty password and for
    passwords of 12 or more characters. *)
Lemma scorers_agree_iff (password : string) :
  calculatePasswordStrength password == total password
  <-> (String.length password = 0%nat \/ (12 <= String.length password)%nat).
Proof.
  pose proof (scorers_differ_by_length_term password) as D.
  assert (I : calculatePasswordStrength password == total password
              <-> award (8 <=? String.length password)%nat requirements.length
                  == lengthScore password).
  { split; intros E.
    - rewrite E in D. lra.
    - rewrite E in D. lra. }
  rewrite I. clear I D.
  destruct (leb_award_length password) as [[Hn ->] | [Hn ->]];
    destruct (lengthScore_cases password) as [[HL ->] | [HL ->]].
  - (* fewer than 8 characters *)
    split.
    + intros E. left.
      destruct (String.length password) as [|n] eqn:En; [reflexivity|].
      assert (H1 : inject_Z (Z.of_nat 1) <= JS.length password)
        by (apply JS_length_ge; lia).
      change (inject_Z (Z.of_nat 1)) with 1 in H1. lra.
    + intros [E | E]; [|lia].
      unfold JS.length. rewrite E. reflexivity.
  - apply JS_length_lt in Hn.
    change (inject_Z (Z.of_nat 8)) with 8 in Hn. lra.
  - (* 8 to 11 characters *)
    split; [intros E; lra|].
    intros [E | E]; [lia|].
    apply JS_length_ge in E.
    change (inject_Z (Z.of_nat 12)) with 12 in E. lra.
  - (* 12 or more *)
    split; [|reflexivity].
    intros _. right.
    destruct (Nat.le_gt_cases 12 (String.length password)) as [H | H];
      [exact H|].
    apply JS_length_lt in H.
    change (inject_Z (Z.of_nat 12)) with 12 in H. lra.
Qed.

(** The character codes of the special characters, read off lines 297 and
    647. *)
Lemma specialChars_codes :
  map nat_of_ascii (list_ascii_of_string specialChars)
  = [33; 64; 35; 36; 37; 94; 38; 42; 40; 41; 95; 43; 45; 61; 91; 93; 123;
     125; 59; 39; 58; 34; 92; 124; 44; 46; 60; 62; 47; 63]%nat.
Proof. reflexivity. Qed.

(** Where the two scorers part at the threshold of the login form: eight
    characters with a lowercase letter and a special character pass the
    login test with 64, while the display shows 172/3, below 60. *)
Lemma login_accepts_below_60_on_display :
  loginRejectsPassword "aeiouaa!" = false
  /\ calculatePasswordStrength "aeiouaa!" == 64
  /\ total "aeiouaa!" == 172 # 3
  /\ total "aeiouaa!" < 60.
Proof.
  repeat split; try (vm_compute; reflexivity).
Qed.

End TwoScorers.

Section Monotonicity.

Lemma ite_mono (b b' : bool) (w : Q) :
  0 <= w -> (b = true -> b' = true) ->
  (if b then w else 0) <= (if b' then w else 0).
Proof.
  intros Hw Hb. destruct b.
  - rewrite (Hb eq_refl). lra.
  - destruct b'; lra.
Qed.

Lemma andb_test_append (m1 m2 : ascii -> bool) (p s : string) :
  JS.test (JS.class m1) p && JS.test (JS.class m2) p = true ->
  JS.test (JS.class m1) (p ++ s) && JS.test (JS.class m2) (p ++ s) = true.
Proof.
  rewrite !andb_true_iff. intros [H1 H2].
  split; now apply test_class_append.
Qed.

Lemma leb_length_append (n : nat) (p s : string) :
  (n <=? String.length p)%nat = true ->
  (n <=? String.length (p ++ s))%nat = true.
Proof. rewrite !Nat.leb_le, length_append. lia. Qed.

(** Appending characters never removes a bonus. *)
Lemma bonuses_append (p s : string) : bonuses p <= bonuses (p ++ s).
Proof.
  unfold bonuses.
  pose proof (ite_mono _ _ 0.2 ltac:(lra)
                (andb_test_append lower_a_z upper_A_Z p s)).
  pose proof (ite_mono _ _ 0.2 ltac:(lra)
                (andb_test_append digit_0_9 letter_a_zA_Z p s)).
  pose proof (ite_mono _ _ 0.3 ltac:(lra) (leb_length_append 12 p s)).
  pose proof (ite_mono _ _ 0.2 ltac:(lra) (leb_length_append 16 p s)).
  lra.
Qed.

Lemma penalties_bounds (password : string) :
  0 <= penalties password <= 0.7.
Proof.
  unfold penalties.
  destruct (hasCommonPattern password), (hasRepeats password),
    (hasSequential password); lra.
Qed.

(** Appending characters lowers the complexity by 0.7 at most. *)
Lemma calculateComplexity_append (p s : string) :
  calculateComplexity p - 0.7 <= calculateComplexity (p ++ s).
Proof.
  rewrite (calculateComplexity_eq p), (calculateComplexity_eq (p ++ s)).
  pose proof (bonuses_append p s) as HB.
  pose proof (penalties_bounds p) as HP.
  pose proof (penalties_bounds (p ++ s)) as HP'.
  destruct (clamp01_cases (0.7 - penalties p + bonuses p))
    as [[H ->] | [[H ->] | [H ->]]];
    destruct (clamp01_cases (0.7 - penalties (p ++ s) + bonuses (p ++ s)))
      as [[H' ->] | [[H' ->] | [H' ->]]]; lra.
Qed.

Lemma award_append (member : ascii -> bool) (r : requirement) (p s : string) :
  0 <= weight r ->
  award (JS.test (JS.class member) p) r
  <= award (JS.test (JS.class member) (p ++ s)) r.
Proof. intros H. apply award_mono; [exact H | apply test_class_append]. Qed.

Lemma award_addsClass (member : ascii -> bool) (r : requirement) (p s : string) :
  addsClass member p s ->
  award (JS.test (JS.class member) (p ++ s)) r
  == award (JS.test (JS.class member) p) r + weight r.
Proof. intros [H1 H2]. now apply award_gain. Qed.

(** C4: when the suffix [s] brings a character of a class (lowercase,
    uppercase, digit, special) that [p] lacks, the total of [p ++ s] is at
    least the total of [p]. *)
Theorem total_append_new_class (p s : string) :
  addsMissingClass p s -> total p <= total (p ++ s).
Proof.
  intros H. rewrite (total_eq p), (total_eq (p ++ s)).
  pose proof (lengthScore_mono p (p ++ s)
                ltac:(rewrite length_append; lia)) as HL.
  pose proof (calculateComplexity_append p s) as HC.
  pose proof (award_append lower_a_z requirements.lowercase p s
                ltac:(simpl; lra)) as H1.
  pose proof (award_append upper_A_Z requirements.uppercase p s
                ltac:(simpl; lra)) as H2.
  pose proof (award_append digit_0_9 requirements.number p s
                ltac:(simpl; lra)) as H3.
  pose proof (award_append special_char requirements.special p s
                ltac:(simpl; lra)) as H4.
  destruct H as [G | [G | [G | G]]];
    [ apply (award_addsClass lower_a_z requirements.lowercase) in G
    | apply (award_addsClass upper_A_Z requirements.uppercase) in G
    | apply (award_addsClass digit_0_9 requirements.number) in G
    | apply (award_addsClass special_char requirements.special) in G ];
    cbn [weight requirements.lowercase requirements.uppercase
         requirements.number requirements.special] in G;
    lra.
Qed.

(** The hypothesis of C4 holds for the password [a] and the suffix [1]. *)
Lemma total_append_new_class_witness :
  addsMissingClass "a" "1" /\ total "a" <= total ("a" ++ "1").
Proof.
  assert (H : addsMissingClass "a" "1").
  { right; right; left. split; reflexivity. }
  split; [exact H | exact (total_append_new_class "a" "1" H)].
Defined.

End Monotonicity.

(** ** The passwords of the testable properties *)

Section Examples.

Set Warnings "-inexact-float".

(** Closed comparisons of rationals, by evaluation. *)
Ltac q_eval :=
  match goal with
  | |- _ /\ _ => split; q_eval
  | |- _ == _ => vm_compute; reflexivity
  | |- _ <= _ => apply Qle_bool_iff; vm_compute; reflexivity
  | |- _ < _ => apply Qlt_alt; vm_compute; reflexivity
  | |- ~ (_ == _) => vm_compute; discriminate
  | |- _ = _ => vm_compute; reflexivity
  end.

(** C5, as stated, fails: with every entry of [perRule] false and the
    complexity at its baseline, the total of the empty password is not its
    zero length term, it is 14. *)
Lemma empty_total_is_not_length_term :
  ~ (perRule "" = results.mk false false false false false false
     /\ calculateComplexity "" == 0.7
     /\ lengthScore "" == 0
     /\ total "" == lengthScore "").
Proof. intros (_ & _ & _ & H). revert H. vm_compute. discriminate. Qed.

(** C5, amended: for the empty password the six entries of [perRule] are
    false, no penalty and no bonus of the complexity applies and the
    complexity is the baseline 0.7, the length term and the class terms are
    zero, and the total is 14, the baseline complexity times its weight
    20. *)
Theorem empty_password_score :
  perRule "" = results.mk false false false false false false
  /\ hasCommonPattern "" = false /\ hasRepeats "" = false
  /\ hasSequential "" = false
  /\ penalties "" == 0 /\ bonuses "" == 0
  /\ calculateComplexity "" == 0.7
  /\ lengthScore "" == 0
  /\ total "" == 0.7 * weight requirements.complexity
  /\ total "" == 14.
Proof. q_eval. Qed.

(** C6, as stated, fails: for twelve letters [a] the entry [complexity] of
    [perRule] is true, so the entries other than [length] and [lowercase]
    are not all false. *)
Lemma twelve_a_complexity_entry_is_true :
  ~ (perRule twelve_a = results.mk true true false false false false
     /\ hasRepeats twelve_a = true
     /\ 0 < calculateComplexity twelve_a < 1).
Proof. intros (H & _). revert H. vm_compute. discriminate. Qed.

(** C6, amended: for twelve letters [a] the entries [length], [lowercase]
    and [complexity] of [perRule] are true and the three others false; the
    repeat penalty and the bonus for 12 characters apply, no other
    adjustment does, and the complexity lies strictly between 0 and 1, in
    exact arithmetic and in binary64 alike. *)
Theorem twelve_a_score :
  perRule twelve_a = results.mk true true false false false true
  /\ Binary64.perRule twelve_a = results.mk true true false false false true
  /\ hasRepeats twelve_a = true
  /\ (12 <=? String.length twelve_a)%nat = true
  /\ hasCommonPattern twelve_a = false
  /\ hasSequential twelve_a = false
  /\ (16 <=? String.length twelve_a)%nat = false
  /\ 0 < calculateComplexity twelve_a
  /\ calculateComplexity twelve_a < 1
  /\ PrimFloat.ltb 0 (Binary64.calculateComplexity twelve_a) = true
  /\ PrimFloat.ltb (Binary64.calculateComplexity twelve_a) 1 = true.
Proof. q_eval. Qed.

(** C7: for [Passw0rd!] the entries [length], [lowercase], [uppercase],
    [number] and [special] are true, and the penalty for common patterns
    does not apply: the lower-cased password is [passw0rd!], which does not
    contain the literal [password], nor any other common pattern. *)
Theorem Passw0rd_score :
  results.length (perRule "Passw0rd!") = true
  /\ results.lowercase (perRule "Passw0rd!") = true
  /\ results.uppercase (perRule "Passw0rd!") = true
  /\ results.number (perRule "Passw0rd!") = true
  /\ results.special (perRule "Passw0rd!") = true
  /\ JS.toLowerCase "Passw0rd!" = "passw0rd!"%string
  /\ JS.test (JS.literal "password") (JS.toLowerCase "Passw0rd!") = false
  /\ hasCommonPattern "Passw0rd!" = false
  /\ penalties "Passw0rd!" == 0
  /\ calculateComplexity "Passw0rd!" == clamp01 (0.7 + bonuses "Passw0rd!").
Proof. q_eval. Qed.

(** C8: for [Tr0ub4dour&3xyz] the penalty for sequences applies, through
    the run [xyz], the bonus for 12 characters applies, and the total is at
    least 70. *)
Theorem Tr0ub4dour_score :
  JS.test (JS.literal_i "xyz") "Tr0ub4dour&3xyz" = true
  /\ hasSequential "Tr0ub4dour&3xyz" = true
  /\ penalties "Tr0ub4dour&3xyz" == 0.2
  /\ (12 <=? String.length "Tr0ub4dour&3xyz")%nat = true
  /\ calculateComplexity "Tr0ub4dour&3xyz"
     == clamp01 (0.7 - 0.2 + 0.2 + 0.2 + 0.3)
  /\ 70 <= total "Tr0ub4dour&3xyz".
Proof. q_eval. Qed.

(** C10, as stated, fails: the complexity that the code returns for
    twelve spaces is not the number 0.8. *)
Lemma twelve_spaces_complexity_is_not_0_8 :
  ~ (Binary64.perRule twelve_spaces
     = results.mk true false false false false true
     /\ Binary64.calculateComplexity twelve_spaces = 0.8%float
     /\ Binary64.total twelve_spaces = 36%float).
Proof.
  intros (_ & H & _).
  apply (f_equal (fun x => PrimFloat.eqb x 0.8%float)) in H.
  vm_compute in H. discriminate.
Qed.

(** C10, amended: for twelve spaces the entries [length] and [complexity]
    of [perRule] are true and the four others false; only the repeat
    penalty and the bonus for 12 characters apply, and the complexity that
    the code returns is 0.7999999999999999, the binary64 result of
    0 - 0.2 + 0.3 + 0.7 and the number next below 0.8; the total is 36. *)
Theorem twelve_spaces_score :
  String.length twelve_spaces = 12%nat
  /\ Binary64.perRule twelve_spaces
     = results.mk true false false false false true
  /\ perRule twelve_spaces = results.mk true false false false false true
  /\ hasCommonPattern twelve_spaces = false
  /\ hasRepeats twelve_spaces = true
  /\ hasSequential twelve_spaces = false
  /\ (12 <=? String.length twelve_spaces)%nat = true
  /\ (16 <=? String.length twelve_spaces)%nat = false
  /\ Binary64.calculateComplexity twelve_spaces
     = (0 - 0.2 + 0.3 + 0.7)%float
  /\ Binary64.calculateComplexity twelve_spaces = 0.7999999999999999%float
  /\ PrimFloat.next_up (Binary64.calculateComplexity twelve_spaces)
     = 0.8%float
  /\ Binary64.total twelve_spaces = 36%float.
Proof. q_eval. Qed.

End Examples.

(** ** The tests of the code and the conditions of the specification *)

Section Reflection.

Lemma test_literal_iff (d s : string) :
  JS.test (JS.literal d) s = true <-> Spec.Substring d s.
Proof.
  rewrite test_iff. unfold Spec.Substring. split.
  - intros (pre & suf & -> & H). apply literal_iff in H as (post & ->).
    now exists pre, post.
  - intros (pre & post & ->). exists pre, (d ++ post)%string.
    split; [reflexivity | apply literal_iff; now exists post].
Qed.

Lemma hasCommonPattern_iff (p : string) :
  hasCommonPattern p = true <-> Spec.ContainsDenylisted p.
Proof.
  unfold hasCommonPattern, Spec.ContainsDenylisted. rewrite existsb_exists.
  split; intros (d & Hin & H); exists d; (split; [exact Hin|]);
    now apply test_literal_iff.
Qed.

Lemma dot_backref_iff (suf : string) :
  JS.dot_backref_2_or_more suf = true <->
  exists c post, JS.isLineTerminator c = false
                 /\ suf = (Spec.thrice c ++ post)%string.
Proof.
  unfold JS.dot_backref_2_or_more. split.
  - destruct suf as [|c [|c1 [|c2 post]]]; try discriminate.
    rewrite !andb_true_iff, negb_true_iff, !Ascii.eqb_eq.
    intros [[H ->] ->]. now exists c, post.
  - intros (c & post & H & ->). simpl.
    now rewrite H, Ascii.eqb_refl.
Qed.

Lemma hasRepeats_iff (p : string) :
  hasRepeats p = true <-> Spec.RepeatsThriceOnOneLine p.
Proof.
  unfold hasRepeats, Spec.RepeatsThriceOnOneLine, Spec.Substring.
  rewrite test_iff. split.
  - intros (pre & suf & -> & H).
    apply dot_backref_iff in H as (c & post & H & ->).
    exists c. split; [exact H | now exists pre, post].
  - intros (c & H & pre & post & ->).
    exists pre, (Spec.thrice c ++ post)%string.
    split; [reflexivity | apply dot_backref_iff; now exists c, post].
Qed.

Lemma toLowerCaseUnit_canonicalize (c : ascii) :
  JS.toLowerCaseUnit (JS.canonicalize c) = JS.toLowerCaseUnit c.
Proof. destruct c as [[] [] [] [] [] [] [] []]; reflexivity. Qed.

Lemma canonicalize_toLowerCaseUnit (c : ascii) :
  JS.canonicalize (JS.toLowerCaseUnit c) = JS.canonicalize c.
Proof. destruct c as [[] [] [] [] [] [] [] []]; reflexivity. Qed.

(** Two code units are equal under the [i] flag exactly when their lower
    cases are equal. *)
Lemma canonicalize_eq_iff (c x : ascii) :
  JS.canonicalize c = JS.canonicalize x
  <-> JS.toLowerCaseUnit c = JS.toLowerCaseUnit x.
Proof.
  split; intros E.
  - now rewrite <- (toLowerCaseUnit_canonicalize c), E,
      toLowerCaseUnit_canonicalize.
  - now rewrite <- (canonicalize_toLowerCaseUnit c), E,
      canonicalize_toLowerCaseUnit.
Qed.

Lemma literal_i_iff (pat suf : string) :
  JS.literal_i pat suf = true <->
  exists t post, suf = (t ++ post)%string
                 /\ JS.toLowerCase t = JS.toLowerCase pat.
Proof.
  revert suf. induction pat as [|x pat IH]; intros suf; simpl.
  - split; [intros _; now exists "", suf | reflexivity].
  - destruct suf as [|c s].
    + split; [discriminate|].
      intros ([|c t] & post & E & L); discriminate.
    + rewrite andb_true_iff, Ascii.eqb_eq, canonicalize_eq_iff, IH. split.
      * intros (Ec & t & post & -> & L).
        exists (String c t), post. simpl. now rewrite Ec, L.
      * intros ([|c' t] & post & E & L); [discriminate|].
        simpl in E, L. injection E as -> ->. injection L as Ec L.
        split; [exact Ec | now exists t, post].
Qed.

Lemma substring_length (u s : string) :
  Spec.Substring u s -> (String.length u <= String.length s)%nat.
Proof. intros (pre & post & ->). rewrite !length_append. lia. Qed.

Lemma substring_cons (u : string) (a : ascii) (s : string) :
  Spec.Substring u s -> Spec.Substring u (String a s).
Proof. intros (pre & post & ->). now exists (String a pre), post. Qed.

Lemma windows3_iff (u s : string) :
  In u (windows3 s) <-> String.length u = 3%nat /\ Spec.Substring u s.
Proof.
  induction s as [|a s IH].
  - simpl. split; [contradiction|].
    intros [L H]. apply substring_length in H. simpl in H. lia.
  - destruct s as [|b [|c s']].
    + simpl. split; [contradiction|].
      intros [L H]. apply substring_length in H. simpl in H. lia.
    + simpl. split; [contradiction|].
      intros [L H]. apply substring_length in H. simpl in H. lia.
    + change (windows3 (String a (String b (String c s'))))
        with (String a (String b (String c "")) :: windows3 (String b (String c s'))).
      simpl In. rewrite IH. split.
      * intros [<- | [L H]].
        -- split; [reflexivity | now exists "", s'].
        -- split; [exact L | now apply substring_cons].
      * intros [L (pre & post & E)].
        destruct pre as [|a' pre].
        -- left. destruct u as [|u1 [|u2 [|u3 [|u4 u]]]]; try discriminate.
           simpl in E. now injection E as -> -> ->.
        -- right. split; [exact L|].
           simpl in E. injection E as _ E. now exists pre, post.
Qed.

Lemma sequentialPatterns_windows :
  sequentialPatterns
  = (windows3 Spec.alphabet ++ windows3 Spec.digits)%list.
Proof. reflexivity. Qed.

(** The alternatives of the sequence pattern are the ascending runs of
    three letters or three digits. *)
Lemma AscendingRun_iff (u : string) :
  Spec.AscendingRun u <-> In u sequentialPatterns.
Proof.
  unfold Spec.AscendingRun.
  rewrite sequentialPatterns_windows, in_app_iff, !windows3_iff. tauto.
Qed.

Lemma sequentialPatterns_lower (pat : string) :
  In pat sequentialPatterns -> JS.toLowerCase pat = pat.
Proof.
  intros H. simpl in H.
  repeat (destruct H as [<- | H]; [reflexivity|]). contradiction.
Qed.

Lemma hasSequential_iff (p : string) :
  hasSequential p = true <-> Spec.HasAscendingRun p.
Proof.
  unfold hasSequential, Spec.HasAscendingRun. rewrite test_iff. split.
  - intros (pre & suf & -> & H). unfold JS.alt in H.
    apply existsb_exists in H as (m & Hin & Hm).
    apply in_map_iff in Hin as (pat & <- & Hpat).
    apply literal_i_iff in Hm as (t & post & -> & E).
    exists t. split; [now exists pre, post|].
    apply AscendingRun_iff. rewrite E.
    now rewrite (sequentialPatterns_lower pat Hpat).
  - intros (t & (pre & post & ->) & H). apply AscendingRun_iff in H.
    exists pre, (t ++ post)%string. split; [reflexivity|].
    unfold JS.alt. apply existsb_exists.
    exists (JS.literal_i (JS.toLowerCase t)).
    split; [now apply in_map|].
    apply literal_i_iff. exists t, post. split; [reflexivity|].
    symmetry. now apply sequentialPatterns_lower.
Qed.

Lemma test_class_iff (member : ascii -> bool) (p : string) :
  JS.test (JS.class member) p = true <->
  exists c, Spec.Occurs c p /\ member c = true.
Proof.
  rewrite test_iff. unfold Spec.Occurs, Spec.Substring. split.
  - intros (pre & suf & -> & H).
    apply class_iff in H as (c & post & -> & H).
    exists c. split; [now exists pre, post | exact H].
  - intros (c & (pre & post & ->) & H).
    exists pre, (String c post). split; [reflexivity | exact H].
Qed.

Lemma inRange_iff (lo hi : nat) (c : ascii) :
  JS.inRange lo hi c = true <-> (lo <= nat_of_ascii c <= hi)%nat.
Proof.
  unfold JS.inRange, JS.charCode.
  now rewrite andb_true_iff, !Nat.leb_le.
Qed.

Lemma lower_test_iff (p : string) :
  JS.test (JS.class lower_a_z) p = true <-> Spec.HasLowercase p.
Proof.
  rewrite test_class_iff. unfold Spec.HasLowercase, Spec.Between, lower_a_z.
  split; intros (c & H & R); exists c; (split; [exact H|]);
    now apply inRange_iff.
Qed.


Lemma digit_test_iff (p : string) :
  JS.test (JS.class digit_0_9) p = true <-> Spec.HasDigit p.
Proof.
  rewrite test_class_iff. unfold Spec.HasDigit, Spec.Between, digit_0_9.
  split; intros (c & H & R); exists c; (split; [exact H|]);
    now apply inRange_iff.
Qed.


End Reflection.

(** ** The complexity against its specification *)

Section ComplexitySpec.


Lemma adjustment_applies (P : Prop) (amount value : Q) :
  P -> Spec.adjustment P amount value -> value == amount.
Proof. intros HP [[_ E] | [N _]]; [exact E | contradiction]. Qed.

Lemma adjustment_skipped (P : Prop) (amount value : Q) :
  ~ P -> Spec.adjustment P amount value -> value == 0.
Proof. intros HP [[H _] | [_ E]]; [contradiction | exact E]. Qed.


(** Three line feeds in a row are a character repeated three times, and
    the code subtracts nothing for them: the dot of the pattern of line
    318 matches no line terminator. *)
Lemma complexity_of_three_line_feeds :
  ~ Spec.complexity three_line_feeds (calculateComplexity three_line_feeds).
Proof.
  intros (a1 & a2 & a3 & a4 & a5 & a6 & a7
          & A1 & A2 & A3 & A4 & A5 & A6 & A7 & E).
  apply adjustment_skipped in A1;
    [|rewrite <- hasCommonPattern_iff; vm_compute; discriminate].
  apply adjustment_applies in A2;
    [|exists "010"%char, "", ""; reflexivity].
  apply adjustment_skipped in A3;
    [|rewrite <- hasSequential_iff; vm_compute; discriminate].
  apply adjustment_skipped in A4;
    [|intros [H _]; apply lower_test_iff in H; vm_compute in H; discriminate].
  apply adjustment_skipped in A5;
    [|intros [H _]; apply digit_test_iff in H; vm_compute in H; discriminate].
  apply adjustment_skipped in A6; [|simpl; lia].
  apply adjustment_skipped in A7; [|simpl; lia].
  assert (E' : Spec.clamp 0 1 (0.7 + a1 + a2 + a3 + a4 + a5 + a6 + a7)
               == Spec.clamp 0 1 (0.7 - 0.2)).
  { change (Spec.clamp 0 1) with clamp01. apply clamp01_proper. lra. }
  rewrite E' in E. revert E. vm_compute. discriminate.
Qed.


(** C9: the repeat penalty is case-sensitive.  When no character occurs
    three times in a row, compared as it is written, the test [hasRepeats]
    fails and the complexity carries no repeat penalty. *)
Theorem no_exact_triple_no_repeat_penalty (p : string) :
  ~ Spec.RepeatsThrice p ->
  hasRepeats p = false
  /\ calculateComplexity p
     == clamp01 (0.7 - (if hasCommonPattern p then 0.3 else 0)
                     - (if hasSequential p then 0.2 else 0)
                 + bonuses p).
Proof.
  intros Hno.
  assert (E : hasRepeats p = false).
  { destruct (hasRepeats p) eqn:E; [|reflexivity].
    apply hasRepeats_iff in E as (c & _ & H).
    exfalso. apply Hno. now exists c. }
  split; [exact E|].
  rewrite calculateComplexity_eq. unfold penalties. rewrite E.
  apply clamp01_proper. ring.
Qed.

Lemma aaA_has_no_exact_triple : ~ Spec.RepeatsThrice "aaA".
Proof.
  intros (c & pre & post & E).
  destruct pre as [|x0 [|x1 [|x2 [|x3 pre]]]]; simpl in E;
    try discriminate; injection E; intros; subst; discriminate.
Qed.

(** The hypothesis of C9 holds for [aaA], whose lower case [aaa] does
    repeat a character three times. *)
Lemma no_exact_triple_no_repeat_penalty_witness :
  ~ Spec.RepeatsThrice "aaA"
  /\ Spec.RepeatsThrice (JS.toLowerCase "aaA")
  /\ hasRepeats "aaA" = false
  /\ calculateComplexity "aaA"
     == clamp01 (0.7 - (if hasCommonPattern "aaA" then 0.3 else 0)
                     - (if hasSequential "aaA" then 0.2 else 0)
                 + bonuses "aaA").
Proof.
  split; [exact aaA_has_no_exact_triple|].
  split; [exists "a"%char, "", ""; reflexivity|].
  exact (no_exact_triple_no_repeat_penalty "aaA" aaA_has_no_exact_triple).
Defined.

End ComplexitySpec.

(** ** The rounding of the runtime *)

Section Rounding.

Set Warnings "-inexact-float".

(** The entries of [results] are the same in binary64 and in exact
    arithmetic, for every password: the comparison of the complexity with
    0.7 never falls between the two. *)
Lemma perRule_binary64 (password : string) :
  Binary64.perRule password = perRule password.
Proof.
  unfold Binary64.perRule, perRule, Binary64.validatePasswordStrength,
    validatePasswordStrength. cbv zeta. cbn [fst]. f_equal.
  unfold Binary64.calculateComplexity, calculateComplexity.
  destruct (hasCommonPattern password), (hasRepeats password),
    (hasSequential password),
    (JS.test (JS.class lower_a_z) password
     && JS.test (JS.class upper_A_Z) password),
    (JS.test (JS.class digit_0_9) password
     && JS.test (JS.class letter_a_zA_Z) password),
    (12 <=? String.length password)%nat,
    (16 <=? String.length password)%nat;
    vm_compute; reflexivity.
Qed.


(** The passwords of the claims, as the runtime computes them. *)
Lemma binary64_values :
  Binary64.total "" = 14%float
  /\ Binary64.calculateComplexity twelve_a = 0.7999999999999999%float
  /\ Binary64.total twelve_a = 51%float
  /\ Binary64.total "Passw0rd!" = 95%float
  /\ Binary64.total "Tr0ub4dour&3xyz" = 100%float
  /\ Binary64.calculateComplexity twelve_spaces = 0.7999999999999999%float
  /\ Binary64.total twelve_spaces = 36%float
  /\ Binary64.calculatePasswordStrength "a" = 29%float
  /\ Binary64.total "a" = 30.666666666666668%float
  /\ Binary64.calculateComplexity three_line_feeds = 0.7%float.
Proof. repeat split; vm_compute; reflexivity. Qed.

End Rounding.

(** ** The display of the strength *)

Section Display.

Lemma lessThan_iff (a b : Q) : lessThan a b = true <-> a < b.
Proof.
  unfold lessThan. rewrite negb_true_iff. split.
  - intros H. apply Qnot_le_lt. intros L.
    apply Qle_bool_iff in L. congruence.
  - intros H. destruct (Qle_bool b a) eqn:E; [|reflexivity].
    apply Qle_bool_iff in E. exfalso. now apply (Qlt_not_le a b).
Qed.

Lemma lessThan_false_iff (a b : Q) : lessThan a b = false <-> b <= a.
Proof.
  unfold lessThan. rewrite negb_false_iff. apply Qle_bool_iff.
Qed.

(** The total by the number of classes: the length term, 15 for each
    class that is present, and the complexity term. *)
Lemma total_by_classes (password : string) :
  total password
  == lengthScore password
     + 15 * inject_Z (Z.of_nat (classCount password))
     + calculateComplexity password * 20.
Proof.
  rewrite total_eq. unfold award, classCount.
  destruct (JS.test (JS.class lower_a_z) password),
    (JS.test (JS.class upper_A_Z) password),
    (JS.test (JS.class digit_0_9) password),
    (JS.test (JS.class special_char) password);
    cbn [weight requirements.lowercase requirements.uppercase
         requirements.number requirements.special];
    simpl (Z.of_nat _); unfold inject_Z; ring.
Qed.

Lemma calculatePasswordStrength_by_classes (password : string) :
  calculatePasswordStrength password
  == award (8 <=? String.length password)%nat requirements.length
     + 15 * inject_Z (Z.of_nat (classCount password))
     + calculateComplexity password * 20.
Proof.
  rewrite calculatePasswordStrength_eq. unfold award at 2 3 4 5.
  unfold classCount.
  destruct (JS.test (JS.class lower_a_z) password),
    (JS.test (JS.class upper_A_Z) password),
    (JS.test (JS.class digit_0_9) password),
    (JS.test (JS.class special_char) password);
    cbn [weight requirements.lowercase requirements.uppercase
         requirements.number requirements.special];
    simpl (Z.of_nat _); unfold inject_Z; ring.
Qed.

Lemma classCount_le_4 (password : string) : (classCount password <= 4)%nat.
Proof.
  unfold classCount.
  destruct (JS.test (JS.class lower_a_z) password),
    (JS.test (JS.class upper_A_Z) password),
    (JS.test (JS.class digit_0_9) password),
    (JS.test (JS.class special_char) password); simpl; lia.
Qed.

Lemma inject_nat_le (n m : nat) :
  (n <= m)%nat -> inject_Z (Z.of_nat n) <= inject_Z (Z.of_nat m).
Proof. intros H. rewrite <- Zle_Qle. now apply Nat2Z.inj_le. Qed.

(** With [k] classes the total is between [15 k] and [40 + 15 k]. *)
Lemma total_between_classes (password : string) :
  15 * inject_Z (Z.of_nat (classCount password)) <= total password
  /\ total password <= 40 + 15 * inject_Z (Z.of_nat (classCount password)).
Proof.
  rewrite total_by_classes.
  pose proof (lengthScore_bounds password).
  pose proof (calculateComplexity_bounds password).
  split; lra.
Qed.

Lemma total_le_100 (password : string) : total password <= 100.
Proof.
  pose proof (total_between_classes password) as [_ H].
  pose proof (inject_nat_le _ _ (classCount_le_4 password)) as K.
  change (inject_Z (Z.of_nat 4)) with 4 in K. lra.
Qed.

Lemma total_nonneg (password : string) : 0 <= total password.
Proof.
  pose proof (total_between_classes password) as [H _].
  pose proof (inject_nat_le _ _ (Nat.le_0_l (classCount password))) as K.
  change (inject_Z (Z.of_nat 0)) with 0 in K. lra.
Qed.

(** X1: the bar of the display is as wide as the total, the cap at 100 of
    [updatePasswordDisplay] never cutting it, and the whole percentage of
    the strength line lies between 0 and 100. *)
Theorem bar_width_is_total (password : string) :
  barWidth (displayedStrength password) == total password
  /\ (0 <= Math_round (barWidth (displayedStrength password)) <= 100)%Z.
Proof.
  assert (E : barWidth (displayedStrength password) == total password).
  { unfold displayedStrength, updatePasswordDisplay. cbn [barWidth].
    unfold JS.Math_min. apply Q.min_l. apply total_le_100. }
  split; [exact E|].
  pose proof (total_le_100 password) as H100.
  pose proof (total_nonneg password) as H0.
  unfold Math_round. split.
  - change 0%Z with (Qfloor 0). apply Qfloor_resp_le. rewrite E. lra.
  - change 100%Z with (Qfloor (100 + (1 # 2))).
    apply Qfloor_resp_le. rewrite E. lra.
Qed.

End Display.

(** ** The labels of the strength and the suggestions *)

Section Labels.

Lemma perRule_eq (password : string) :
  perRule password
  = results.mk (8 <=? String.length password)%nat
               (JS.test (JS.class lower_a_z) password)
               (JS.test (JS.class upper_A_Z) password)
               (JS.test (JS.class digit_0_9) password)
               (JS.test (JS.class special_char) password)
               (lessThan 0.7 (calculateComplexity password)).
Proof. reflexivity. Qed.

Lemma strength_cases (score : Q) :
  (score < 30 /\ strength (strengthStyleOf score) = "Very Weak"%string)
  \/ (30 <= score < 50 /\ strength (strengthStyleOf score) = "Weak"%string)
  \/ (50 <= score < 70 /\ strength (strengthStyleOf score) = "Fair"%string)
  \/ (70 <= score < 85 /\ strength (strengthStyleOf score) = "Good"%string)
  \/ (85 <= score
      /\ strength (strengthStyleOf score) = "Excellent"%string).
Proof.
  unfold strengthStyleOf.
  destruct (lessThan score 30) eqn:E30;
    [apply lessThan_iff in E30; left; split; [exact E30 | reflexivity]|].
  apply lessThan_false_iff in E30. right.
  destruct (lessThan score 50) eqn:E50;
    [apply lessThan_iff in E50; left; split; [split; assumption | reflexivity]|].
  apply lessThan_false_iff in E50. right.
  destruct (lessThan score 70) eqn:E70;
    [apply lessThan_iff in E70; left; split; [split; assumption | reflexivity]|].
  apply lessThan_false_iff in E70. right.
  destruct (lessThan score 85) eqn:E85;
    [apply lessThan_iff in E85; left; split; [split; assumption | reflexivity]|].
  apply lessThan_false_iff in E85. right.
  split; [assumption | reflexivity].
Qed.

Lemma classCount_bound (password : string) (k : nat) (bound : Q) :
  bound <= total password ->
  40 + 15 * inject_Z (Z.of_nat k) < bound ->
  (k < classCount password)%nat.
Proof.
  intros Hb Hk.
  destruct (Nat.lt_ge_cases k (classCount password)) as [H | H]; [exact H|].
  exfalso. apply inject_nat_le in H.
  pose proof (total_between_classes password) as [_ Hu]. lra.
Qed.

(** X2: the label of the strength line needs character classes: a password
    is shown as Fair only with one class at least, as Good only with two,
    as Excellent only with three; and the suggestions are hidden only with
    two classes at least. *)
Theorem strength_label_needs_classes (password : string) :
  (strength (strengthStyleOf (total password)) = "Fair"%string
   -> (1 <= classCount password)%nat)
  /\ (strength (strengthStyleOf (total password)) = "Good"%string
      -> (2 <= classCount password)%nat)
  /\ (strength (strengthStyleOf (total password)) = "Excellent"%string
      -> (3 <= classCount password)%nat)
  /\ (suggestionsPanel (displayedStrength password) = None
      -> (2 <= classCount password)%nat).
Proof.
  repeat split; intros H.
  - destruct (strength_cases (total password))
      as [[R E] | [[R E] | [[R E] | [[R E] | [R E]]]]];
      rewrite E in H; try discriminate.
    apply (classCount_bound password 0 50); [lra | vm_compute; reflexivity].
  - destruct (strength_cases (total password))
      as [[R E] | [[R E] | [[R E] | [[R E] | [R E]]]]];
      rewrite E in H; try discriminate.
    apply (classCount_bound password 1 70); [lra | vm_compute; reflexivity].
  - destruct (strength_cases (total password))
      as [[R E] | [[R E] | [[R E] | [[R E] | [R E]]]]];
      rewrite E in H; try discriminate.
    apply (classCount_bound password 2 85); [lra | vm_compute; reflexivity].
  - unfold displayedStrength, updatePasswordDisplay in H.
    cbn [suggestionsPanel] in H.
    destruct (lessThan (total password) 70) eqn:E; [discriminate|].
    apply lessThan_false_iff in E.
    apply (classCount_bound password 1 70); [lra | vm_compute; reflexivity].
Qed.

Lemma test_class_mono (m m' : ascii -> bool) (p : string) :
  (forall c, m c = true -> m' c = true) ->
  JS.test (JS.class m) p = true -> JS.test (JS.class m') p = true.
Proof.
  intros Hm. rewrite !test_class_iff. intros (c & H & Hc).
  exists c. split; [exact H | now apply Hm].
Qed.

Lemma classCount_4 (password : string) :
  classCount password = 4%nat ->
  JS.test (JS.class lower_a_z) password = true
  /\ JS.test (JS.class upper_A_Z) password = true
  /\ JS.test (JS.class digit_0_9) password = true
  /\ JS.test (JS.class special_char) password = true.
Proof.
  unfold classCount.
  destruct (JS.test (JS.class lower_a_z) password),
    (JS.test (JS.class upper_A_Z) password),
    (JS.test (JS.class digit_0_9) password),
    (JS.test (JS.class special_char) password); simpl; intros H;
    try discriminate; repeat split.
Qed.

Lemma lower_not_upper (c : ascii) :
  lower_a_z c = true -> upper_A_Z c = true -> False.
Proof.
  unfold lower_a_z, upper_A_Z. rewrite !inRange_iff. lia.
Qed.

(** A password with a lowercase and an uppercase letter has two characters
    at least. *)
Lemma two_cases_two_characters (password : string) :
  JS.test (JS.class lower_a_z) password = true ->
  JS.test (JS.class upper_A_Z) password = true ->
  (2 <= String.length password)%nat.
Proof.
  destruct password as [|c [|c' p]]; simpl.
  - discriminate.
  - rewrite !orb_false_r. intros H1 H2.
    exfalso. exact (lower_not_upper c H1 H2).
  - intros _ _. lia.
Qed.

(** With a lowercase letter, an uppercase letter and a digit both bonuses
    for mixed characters apply and the complexity is 0.4 at least. *)
Lemma complexity_with_mixed_classes (password : string) :
  JS.test (JS.class lower_a_z) password = true ->
  JS.test (JS.class upper_A_Z) password = true ->
  JS.test (JS.class digit_0_9) password = true ->
  0.4 <= bonuses password /\ 0.4 <= calculateComplexity password.
Proof.
  intros Hl Hu Hd.
  assert (Hletter : JS.test (JS.class letter_a_zA_Z) password = true).
  { apply (test_class_mono lower_a_z); [|exact Hl].
    intros c Hc. unfold letter_a_zA_Z. now rewrite Hc. }
  assert (HB : 0.4 <= bonuses password).
  { unfold bonuses. rewrite Hl, Hu, Hd, Hletter. cbn [andb].
    destruct (12 <=? String.length password)%nat,
      (16 <=? String.length password)%nat; lra. }
  split; [exact HB|].
  rewrite calculateComplexity_eq.
  pose proof (penalties_bounds password) as HP.
  destruct (clamp01_cases (0.7 - penalties password + bonuses password))
    as [[H ->] | [[H ->] | [H ->]]]; lra.
Qed.

Lemma lengthScore_ge (password : string) (n : nat) :
  (n <= String.length password)%nat -> (n <= 12)%nat ->
  inject_Z (Z.of_nat n) * (5 # 3) <= lengthScore password.
Proof.
  intros Hn H12. apply JS_length_ge in Hn. apply inject_nat_le in H12.
  change (inject_Z (Z.of_nat 12)) with 12 in H12.
  destruct (lengthScore_cases password) as [[H ->] | [H ->]]; lra.
Qed.

(** With the four classes the total is 70 at least. *)
Lemma total_with_four_classes (password : string) :
  classCount password = 4%nat -> 70 <= total password.
Proof.
  intros H4. destruct (classCount_4 password H4) as (Hl & Hu & Hd & _).
  pose proof (complexity_with_mixed_classes password Hl Hu Hd) as [_ HC].
  pose proof (lengthScore_ge password 2
                (two_cases_two_characters password Hl Hu) ltac:(lia)) as HL.
  change (inject_Z (Z.of_nat 2)) with 2 in HL.
  rewrite total_by_classes, H4.
  change (inject_Z (Z.of_nat 4)) with 4. lra.
Qed.

(** X3: a password with a lowercase letter, an uppercase letter, a digit
    and a special character is shown as Good or Excellent, with a total of
    70 at least and no suggestion, whatever its length and whatever
    patterns it contains. *)
Theorem four_classes_shown_as_good (password : string) :
  classCount password = 4%nat ->
  70 <= total password
  /\ (strength (strengthStyleOf (total password)) = "Good"%string
      \/ strength (strengthStyleOf (total password)) = "Excellent"%string)
  /\ suggestionsPanel (displayedStrength password) = None.
Proof.
  intros H4. pose proof (total_with_four_classes password H4) as H70.
  split; [exact H70|]. split.
  - destruct (strength_cases (total password))
      as [[R E] | [[R E] | [[R E] | [[R E] | [R E]]]]];
      try lra; [left | right]; exact E.
  - unfold displayedStrength, updatePasswordDisplay. cbn [suggestionsPanel].
    apply lessThan_false_iff in H70. now rewrite H70.
Qed.

(** The hypothesis of X3 holds for the four characters [aA1!]. *)
Lemma four_classes_shown_as_good_witness :
  classCount "aA1!" = 4%nat
  /\ 70 <= total "aA1!"
  /\ (strength (strengthStyleOf (total "aA1!")) = "Good"%string
      \/ strength (strengthStyleOf (total "aA1!")) = "Excellent"%string)
  /\ suggestionsPanel (displayedStrength "aA1!") = None.
Proof.
  split; [reflexivity|].
  exact (four_classes_shown_as_good "aA1!" eq_refl).
Defined.

Lemma suggestionsArray_nil (password : string) (r : results.t) :
  suggestionsArray password r = [] ->
  (8 <= String.length password)%nat
  /\ results.uppercase r = true /\ results.lowercase r = true
  /\ results.number r = true /\ results.special r = true
  /\ results.complexity r = true.
Proof.
  unfold suggestionsArray. cbv zeta.
  destruct (Nat.ltb_spec (String.length password) 8) as [L | L],
    (results.uppercase r), (results.lowercase r), (results.number r),
    (results.special r), (results.complexity r);
    cbn [negb app]; intros H; try discriminate.
  repeat split; assumption.
Qed.

(** X4: the suggestions panel never shows the text for a great password.
    When [updatePasswordDisplay] displays the panel, the total is below 70
    and the array of suggestions that [getPasswordSuggestions] builds from
    the results of [validatePasswordStrength] is not empty. *)
Theorem suggestions_panel_is_never_great (password : string) :
  suggestionsPanel (displayedStrength password) <> Some greatPassword
  /\ (suggestionsPanel (displayedStrength password) <> None
      -> suggestionsArray password (perRule password) <> []).
Proof.
  assert (N : total password < 70 ->
              suggestionsArray password (perRule password) <> []).
  { intros Hlt Hnil. apply suggestionsArray_nil in Hnil.
    rewrite perRule_eq in Hnil. cbn in Hnil.
    destruct Hnil as (_ & Hu & Hl & Hd & Hs & _).
    assert (H4 : classCount password = 4%nat)
      by (unfold classCount; now rewrite Hu, Hl, Hd, Hs).
    pose proof (total_with_four_classes password H4). lra. }
  unfold displayedStrength, updatePasswordDisplay. cbn [suggestionsPanel].
  destruct (lessThan (total password) 70) eqn:E.
  - apply lessThan_iff in E. specialize (N E). split.
    + unfold getPasswordSuggestions.
      destruct (suggestionsArray password (perRule password)) as [|x l];
        [congruence|].
      cbn [List.length Nat.ltb Nat.leb]. intros H. injection H as H.
      vm_compute in H. discriminate.
    + intros _. exact N.
  - split; [discriminate | congruence].
Qed.

(** X5: the suggestions follow the checklist: for the results of
    [validatePasswordStrength] the array of suggestions is, in the order
    length, uppercase, lowercase, number, special, complexity, the advice
    of each rule whose entry in [results] is false, and of no other; so it
    has one entry for each rule that is not met. *)
Theorem one_suggestion_per_unmet_rule (password : string) :
  suggestionsArray password (perRule password)
  = (adviceUnless (results.length (perRule password))
                  "• Make it longer (at least 8 characters)"
     ++ adviceUnless (results.uppercase (perRule password))
                     "• Add uppercase letters (A-Z)"
     ++ adviceUnless (results.lowercase (perRule password))
                     "• Add lowercase letters (a-z)"
     ++ adviceUnless (results.number (perRule password))
                     "• Include numbers (0-9)"
     ++ adviceUnless (results.special (perRule password))
                     "• Add special characters (!@#$%^&*)"
     ++ adviceUnless (results.complexity (perRule password))
                     "• Avoid common patterns and repetitive characters")%list
  /\ List.length (suggestionsArray password (perRule password))
     = unmetRules (perRule password).
Proof.
  rewrite perRule_eq. unfold suggestionsArray, unmetRules, adviceUnless.
  cbv zeta.
  cbn [results.length results.lowercase results.uppercase results.number
       results.special results.complexity].
  rewrite Nat.ltb_antisym.
  destruct (8 <=? String.length password)%nat,
    (JS.test (JS.class lower_a_z) password),
    (JS.test (JS.class upper_A_Z) password),
    (JS.test (JS.class digit_0_9) password),
    (JS.test (JS.class special_char) password),
    (lessThan 0.7 (calculateComplexity password)); split; reflexivity.
Qed.

End Labels.

(** ** More on the penalties and on the checklist *)

Section Patterns.

Lemma unmetRules_0 (r : results.t) :
  unmetRules r = 0%nat ->
  results.length r = true /\ results.lowercase r = true
  /\ results.uppercase r = true /\ results.number r = true
  /\ results.special r = true /\ results.complexity r = true.
Proof.
  unfold unmetRules.
  destruct (results.length r), (results.lowercase r), (results.uppercase r),
    (results.number r), (results.special r), (results.complexity r);
    simpl; intros H; try discriminate; repeat split.
Qed.

(** X6: a password that meets the six rules of the checklist has a total
    above 85 and is shown as Excellent. *)
Theorem all_rules_met_is_excellent (password : string) :
  unmetRules (perRule password) = 0%nat ->
  85 < total password
  /\ strength (strengthStyleOf (total password)) = "Excellent"%string.
Proof.
  intros H. apply unmetRules_0 in H. rewrite perRule_eq in H.
  cbn [results.length results.lowercase results.uppercase results.number
       results.special results.complexity] in H.
  destruct H as (Hlen & Hl & Hu & Hd & Hs & Hc).
  apply Nat.leb_le in Hlen. apply lessThan_iff in Hc.
  assert (H4 : classCount password = 4%nat)
    by (unfold classCount; now rewrite Hl, Hu, Hd, Hs).
  pose proof (lengthScore_ge password 8 Hlen ltac:(lia)) as HL.
  change (inject_Z (Z.of_nat 8)) with 8 in HL.
  assert (H85 : 85 < total password).
  { rewrite total_by_classes, H4.
    change (inject_Z (Z.of_nat 4)) with 4. lra. }
  split; [exact H85|].
  destruct (strength_cases (total password))
    as [[R E] | [[R E] | [[R E] | [[R E] | [R E]]]]]; try lra; exact E.
Qed.

(** The hypothesis of X6 holds for [Passw0rd!]. *)
Lemma all_rules_met_is_excellent_witness :
  unmetRules (perRule "Passw0rd!") = 0%nat
  /\ 85 < total "Passw0rd!"
  /\ strength (strengthStyleOf (total "Passw0rd!")) = "Excellent"%string.
Proof.
  split; [reflexivity|].
  exact (all_rules_met_is_excellent "Passw0rd!" eq_refl).
Defined.

Lemma toLowerCase_append (s t : string) :
  JS.toLowerCase (s ++ t) = (JS.toLowerCase s ++ JS.toLowerCase t)%string.
Proof. induction s as [|c s IH]; simpl; [reflexivity | now rewrite IH]. Qed.

Lemma literal_extends (pat : string) : extends (JS.literal pat).
Proof.
  induction pat as [|x pat IH]; intros s t; simpl; [trivial|].
  destruct s as [|c s]; simpl; [discriminate|].
  rewrite !andb_true_iff. intros [E H]. split; [exact E | now apply IH].
Qed.

Lemma literal_i_extends (pat : string) : extends (JS.literal_i pat).
Proof.
  induction pat as [|x pat IH]; intros s t; simpl; [trivial|].
  destruct s as [|c s]; simpl; [discriminate|].
  rewrite !andb_true_iff. intros [E H]. split; [exact E | now apply IH].
Qed.

Lemma alt_extends (ms : list JS.matcher) :
  (forall m, In m ms -> extends m) -> extends (JS.alt ms).
Proof.
  intros Hms s t. unfold JS.alt. rewrite !existsb_exists.
  intros (m & Hin & H). exists m. split; [exact Hin | now apply Hms].
Qed.

Lemma dot_backref_extends : extends JS.dot_backref_2_or_more.
Proof.
  intros [|c [|c1 [|c2 s]]] t; simpl; try discriminate. trivial.
Qed.

Lemma hasRepeats_append (p s : string) :
  hasRepeats p = true -> hasRepeats (p ++ s) = true.
Proof. apply test_append, dot_backref_extends. Qed.

Lemma hasSequential_append (p s : string) :
  hasSequential p = true -> hasSequential (p ++ s) = true.
Proof.
  apply test_append, alt_extends. intros m Hm.
  apply in_map_iff in Hm as (pat & <- & _). apply literal_i_extends.
Qed.

Lemma hasCommonPattern_append (p s : string) :
  hasCommonPattern p = true -> hasCommonPattern (p ++ s) = true.
Proof.
  unfold hasCommonPattern. rewrite !existsb_exists.
  intros (pat & Hin & H). exists pat. split; [exact Hin|].
  rewrite toLowerCase_append. now apply test_append; [apply literal_extends|].
Qed.

(** X17: no penalty of the complexity goes away by typing on: a password
    that contains a common pattern, a repeated character or a sequence
    keeps that penalty whatever is appended, and so do the bonuses. *)
Theorem penalties_stay_when_typing (p s : string) :
  (hasCommonPattern p = true -> hasCommonPattern (p ++ s) = true)
  /\ (hasRepeats p = true -> hasRepeats (p ++ s) = true)
  /\ (hasSequential p = true -> hasSequential (p ++ s) = true)
  /\ penalties p <= penalties (p ++ s)
  /\ bonuses p <= bonuses (p ++ s).
Proof.
  split; [apply hasCommonPattern_append|].
  split; [apply hasRepeats_append|].
  split; [apply hasSequential_append|].
  split; [|apply bonuses_append].
  unfold penalties.
  pose proof (ite_mono _ _ 0.3 ltac:(lra) (hasCommonPattern_append p s)).
  pose proof (ite_mono _ _ 0.2 ltac:(lra) (hasRepeats_append p s)).
  pose proof (ite_mono _ _ 0.2 ltac:(lra) (hasSequential_append p s)).
  lra.
Qed.

Lemma toLowerCaseUnit_idempotent (c : ascii) :
  JS.toLowerCaseUnit (JS.toLowerCaseUnit c) = JS.toLowerCaseUnit c.
Proof. destruct c as [[] [] [] [] [] [] [] []]; reflexivity. Qed.

Lemma toLowerCase_idempotent (s : string) :
  JS.toLowerCase (JS.toLowerCase s) = JS.toLowerCase s.
Proof.
  induction s as [|c s IH]; simpl; [reflexivity|].
  now rewrite toLowerCaseUnit_idempotent, IH.
Qed.

Lemma literal_i_toLowerCase (pat s : string) :
  JS.literal_i pat (JS.toLowerCase s) = JS.literal_i pat s.
Proof.
  revert s. induction pat as [|x pat IH]; intros s; simpl; [reflexivity|].
  destruct s as [|c s]; simpl; [reflexivity|].
  now rewrite canonicalize_toLowerCaseUnit, IH.
Qed.

Lemma test_toLowerCase (m : JS.matcher) (s : string) :
  (forall t, m (JS.toLowerCase t) = m t) ->
  JS.test m (JS.toLowerCase s) = JS.test m s.
Proof.
  intros Hm. induction s as [|c s IH].
  - reflexivity.
  - change (JS.test m (JS.toLowerCase (String c s)))
      with (m (JS.toLowerCase (String c s))
            || JS.test m (JS.toLowerCase s)).
    rewrite Hm, IH. reflexivity.
Qed.

Lemma hasSequential_toLowerCase (p : string) :
  hasSequential (JS.toLowerCase p) = hasSequential p.
Proof.
  apply test_toLowerCase. intros t. unfold JS.alt.
  induction sequentialPatterns as [|pat pats IH]; simpl; [reflexivity|].
  now rewrite literal_i_toLowerCase, IH.
Qed.

Lemma hasCommonPattern_toLowerCase (p : string) :
  hasCommonPattern (JS.toLowerCase p) = hasCommonPattern p.
Proof.
  unfold hasCommonPattern. now rewrite toLowerCase_idempotent.
Qed.

(** Two passwords with the same lower case get the same penalties for
    common patterns and for sequences. *)
Lemma pattern_penalties_ignore_case (p q : string) :
  JS.toLowerCase p = JS.toLowerCase q ->
  hasCommonPattern p = hasCommonPattern q
  /\ hasSequential p = hasSequential q.
Proof.
  intros E. split.
  - now rewrite <- (hasCommonPattern_toLowerCase p), E,
      hasCommonPattern_toLowerCase.
  - now rewrite <- (hasSequential_toLowerCase p), E,
      hasSequential_toLowerCase.
Qed.

Lemma toLowerCaseUnit_asciiLowerUnit (c : ascii) :
  JS.toLowerCaseUnit (asciiLowerUnit c) = JS.toLowerCaseUnit c.
Proof. destruct c as [[] [] [] [] [] [] [] []]; reflexivity. Qed.

Lemma toLowerCase_asciiLower (s : string) :
  JS.toLowerCase (asciiLower s) = JS.toLowerCase s.
Proof.
  induction s as [|c s IH]; simpl; [reflexivity|].
  now rewrite toLowerCaseUnit_asciiLowerUnit, IH.
Qed.

(** X18: the penalties for common patterns and for sequences do not look
    at the case of the letters A-Z: two passwords that differ only in the
    case of such letters get the same result of both tests. *)
Theorem ascii_case_is_ignored_by_pattern_penalties (p q : string) :
  asciiLower p = asciiLower q ->
  hasCommonPattern p = hasCommonPattern q
  /\ hasSequential p = hasSequential q.
Proof.
  intros E. apply pattern_penalties_ignore_case.
  now rewrite <- (toLowerCase_asciiLower p), E, toLowerCase_asciiLower.
Qed.

(** The hypothesis of X18 holds for two spellings of one word. *)
Lemma ascii_case_is_ignored_by_pattern_penalties_witness :
  asciiLower "PassWord" = asciiLower "pASSword"
  /\ hasCommonPattern "PassWord" = hasCommonPattern "pASSword"
  /\ hasSequential "PassWord" = hasSequential "pASSword".
Proof.
  split; [reflexivity|].
  exact (ascii_case_is_ignored_by_pattern_penalties
           "PassWord" "pASSword" eq_refl).
Defined.

End Patterns.

(** ** The login form *)

Section Login.

Lemma calculatePasswordStrength_between_classes (password : string) :
  15 * inject_Z (Z.of_nat (classCount password))
  <= calculatePasswordStrength password
  /\ calculatePasswordStrength password
     <= award (8 <=? String.length password)%nat requirements.length
        + 15 * inject_Z (Z.of_nat (classCount password)) + 20.
Proof.
  rewrite calculatePasswordStrength_by_classes.
  pose proof (calculateComplexity_bounds password).
  pose proof (award_bounds (8 <=? String.length password)%nat
                requirements.length ltac:(simpl; lra)).
  split; lra.
Qed.

Lemma classCount_login_bound (password : string) (k : nat) (w : Q) :
  60 <= calculatePasswordStrength password ->
  award (8 <=? String.length password)%nat requirements.length <= w ->
  w + 15 * inject_Z (Z.of_nat k) + 20 < 60 ->
  (k < classCount password)%nat.
Proof.
  intros H60 Hw Hk.
  destruct (Nat.lt_ge_cases k (classCount password)) as [H | H]; [exact H|].
  exfalso. apply inject_nat_le in H.
  pose proof (calculatePasswordStrength_between_classes password) as [_ Hu].
  lra.
Qed.

(** X7: the login form accepts every password with a lowercase letter, an
    uppercase letter, a digit and a special character, whatever its length:
    the check of [validateLoginForm] sets no minimum length. *)
Theorem login_accepts_four_classes (username password dob : string) :
  (3 <= String.length username)%nat ->
  (0 < String.length dob)%nat ->
  classCount password = 4%nat ->
  validateLoginForm (Some username) (Some password) (Some dob)
  = {| validation.isValid := true; validation.message := None |}.
Proof.
  intros Hu Hd H4.
  destruct (classCount_4 password H4) as (Hl & Hup & _ & _).
  pose proof (two_cases_two_characters password Hl Hup) as Hp.
  unfold validateLoginForm, falsy.
  destruct (Nat.eqb_spec (String.length username) 0) as [E | _]; [lia|].
  destruct (Nat.eqb_spec (String.length password) 0) as [E | _]; [lia|].
  destruct (Nat.eqb_spec (String.length dob) 0) as [E | _]; [lia|].
  cbn [orb].
  destruct (Nat.ltb_spec (String.length username) 3) as [E | _]; [lia|].
  cbv zeta.
  assert (H60 : lessThan (calculatePasswordStrength password) 60 = false).
  { apply lessThan_false_iff.
    pose proof (calculatePasswordStrength_between_classes password) as [H _].
    rewrite H4 in H. change (inject_Z (Z.of_nat 4)) with 4 in H. lra. }
  now rewrite H60.
Qed.

(** The hypotheses of X7 hold for a password of four characters. *)
Lemma login_accepts_four_classes_witness :
  (3 <= String.length "bob")%nat /\ (0 < String.length "2001-02-03")%nat
  /\ classCount "aA1!" = 4%nat
  /\ validateLoginForm (Some "bob") (Some "aA1!") (Some "2001-02-03")
     = {| validation.isValid := true; validation.message := None |}.
Proof.
  assert (Hu : (3 <= String.length "bob")%nat) by (simpl; lia).
  assert (Hd : (0 < String.length "2001-02-03")%nat) by (simpl; lia).
  split; [exact Hu|]. split; [exact Hd|]. split; [reflexivity|].
  exact (login_accepts_four_classes "bob" "aA1!" "2001-02-03" Hu Hd eq_refl).
Defined.

(** X8: what the login form accepts has its three fields filled in, a user
    name of three characters at least, and a password that scores 60 with
    the login scorer, which takes two character classes at least, and
    three when the password has fewer than eight characters. *)
Theorem login_accepts_only (username password dob : option string) :
  validation.isValid (validateLoginForm username password dob) = true ->
  exists u p d,
    username = Some u /\ password = Some p /\ dob = Some d
    /\ (3 <= String.length u)%nat
    /\ (0 < String.length p)%nat /\ (0 < String.length d)%nat
    /\ 60 <= calculatePasswordStrength p
    /\ (2 <= classCount p)%nat
    /\ ((String.length p < 8)%nat -> (3 <= classCount p)%nat).
Proof.
  unfold validateLoginForm, falsy.
  destruct username as [u|], password as [p|], dob as [d|];
    try (cbn; discriminate).
  destruct (Nat.eqb_spec (String.length u) 0) as [E | Hu0];
    [cbn; discriminate|].
  destruct (Nat.eqb_spec (String.length p) 0) as [E | Hp0];
    [cbn; discriminate|].
  destruct (Nat.eqb_spec (String.length d) 0) as [E | Hd0];
    [cbn; discriminate|].
  cbn [orb].
  destruct (Nat.ltb_spec (String.length u) 3) as [E | Hu3];
    [cbn; discriminate|].
  cbv zeta.
  destruct (lessThan (calculatePasswordStrength p) 60) eqn:E60;
    [cbn; discriminate|].
  intros _. apply lessThan_false_iff in E60.
  exists u, p, d. repeat split; try lia; try exact E60.
  - apply (classCount_login_bound p 1 20 E60);
      [|vm_compute; reflexivity].
    apply (award_bounds _ requirements.length). simpl. lra.
  - intros H8.
    apply (classCount_login_bound p 2 0 E60); [|vm_compute; reflexivity].
    destruct (Nat.leb_spec 8 (String.length p)) as [L | _]; [lia|].
    simpl. lra.
Qed.

(** The hypothesis of X8 holds for a password of three characters. *)
Lemma login_accepts_only_witness :
  validation.isValid
    (validateLoginForm (Some "bob") (Some "aB1") (Some "2001-02-03")) = true
  /\ exists u p d,
    Some "bob" = Some u /\ Some "aB1" = Some p /\ Some "2001-02-03" = Some d
    /\ (3 <= String.length u)%nat
    /\ (0 < String.length p)%nat /\ (0 < String.length d)%nat
    /\ 60 <= calculatePasswordStrength p
    /\ (2 <= classCount p)%nat
    /\ ((String.length p < 8)%nat -> (3 <= classCount p)%nat).
Proof.
  assert (H : validation.isValid
                (validateLoginForm (Some "bob") (Some "aB1")
                                   (Some "2001-02-03")) = true)
    by (vm_compute; reflexivity).
  split; [exact H|].
  exact (login_accepts_only (Some "bob") (Some "aB1") (Some "2001-02-03") H).
Defined.

(** On one and the same string: from eight characters on the login scorer
    gives at least the total of the display scorer, below eight characters
    at most that total. *)
Lemma login_score_against_display (password : string) :
  ((8 <= String.length password)%nat ->
   total password <= calculatePasswordStrength password
   /\ (60 <= total password ->
       lessThan (calculatePasswordStrength password) 60 = false))
  /\ ((String.length password < 8)%nat ->
      calculatePasswordStrength password <= total password).
Proof.
  pose proof (scorers_differ_by_length_term password) as D.
  pose proof (lengthScore_bounds password) as HL.
  destruct (leb_award_length password) as [[Hn E] | [Hn E]];
    rewrite E in D; split; intros H; try lia.
  - lra.
  - split; [lra|]. intros H60. apply lessThan_false_iff. lra.
Qed.

Lemma trimStart_allWhiteSpace (s : string) :
  allWhiteSpace s = true -> trimStart s = EmptyString.
Proof.
  unfold allWhiteSpace. induction s as [|c s IH]; simpl; [reflexivity|].
  rewrite andb_true_iff. intros [Hc Hs]. rewrite Hc. now apply IH.
Qed.

Lemma trim_allWhiteSpace (s : string) :
  allWhiteSpace s = true -> trim s = EmptyString.
Proof.
  intros H. unfold trim. now rewrite (trimStart_allWhiteSpace s H).
Qed.

(** X10: a password made of white space only is answered like a missing
    field: the submit handler trims it before [validateLoginForm] sees it,
    and the alert asks to fill in all fields, whatever the other fields
    are. *)
Theorem blank_password_is_a_missing_field
        (username dob : option string) (pwd : string) :
  allWhiteSpace pwd = true ->
  loginSubmit username (Some pwd) dob = [ShowAlert fillInAllFields "error"].
Proof.
  intros H. unfold loginSubmit. cbv zeta. cbn [option_map].
  rewrite (trim_allWhiteSpace pwd H).
  unfold validateLoginForm.
  destruct username as [u|], dob as [d|]; cbn [option_map]; try reflexivity.
  cbn [falsy String.length Nat.eqb]. rewrite orb_true_r. reflexivity.
Qed.

(** The hypothesis of X10 holds for three spaces. *)
Lemma blank_password_is_a_missing_field_witness :
  allWhiteSpace "   " = true
  /\ loginSubmit (Some "bob") (Some "   ") (Some "2001-02-03")
     = [ShowAlert fillInAllFields "error"].
Proof.
  split; [reflexivity|].
  exact (blank_password_is_a_missing_field
           (Some "bob") (Some "2001-02-03") "   " eq_refl).
Defined.

Lemma validateLoginForm_accepts (username password dob : string) :
  (3 <= String.length username)%nat ->
  (0 < String.length password)%nat ->
  (0 < String.length dob)%nat ->
  60 <= calculatePasswordStrength password ->
  validateLoginForm (Some username) (Some password) (Some dob)
  = {| validation.isValid := true; validation.message := None |}.
Proof.
  intros Hu Hp Hd H60. unfold validateLoginForm, falsy.
  destruct (Nat.eqb_spec (String.length username) 0) as [E | _]; [lia|].
  destruct (Nat.eqb_spec (String.length password) 0) as [E | _]; [lia|].
  destruct (Nat.eqb_spec (String.length dob) 0) as [E | _]; [lia|].
  cbn [orb].
  destruct (Nat.ltb_spec (String.length username) 3) as [E | _]; [lia|].
  cbv zeta. apply lessThan_false_iff in H60. now rewrite H60.
Qed.

(** X9: what the display rates with 60 or more passes the login when the
    two score the same text.  The display scores the field as it is typed
    and the submit handler scores the trimmed field; for a password
    without white space at its ends and with eight characters at least, a
    displayed total of 60 or more makes the submit handler accept it,
    given a user name of three characters after trimming and a date of
    birth. *)
Theorem shown_60_passes_login (username pwd dob : string) :
  (3 <= String.length (trim username))%nat ->
  (0 < String.length dob)%nat ->
  trim pwd = pwd ->
  (8 <= String.length pwd)%nat ->
  60 <= total pwd ->
  succeeds (loginSubmit (Some username) (Some pwd) (Some dob)) = true.
Proof.
  intros Hu Hd Ht H8 H60. unfold loginSubmit. cbv zeta. cbn [option_map].
  rewrite Ht.
  rewrite (validateLoginForm_accepts (trim username) pwd dob Hu
             ltac:(lia) Hd).
  - reflexivity.
  - destruct (login_score_against_display pwd) as [H _].
    destruct (H H8) as [Hle _]. lra.
Qed.

(** The hypotheses of X9 hold for [Passw0rd!]. *)
Lemma shown_60_passes_login_witness :
  (3 <= String.length (trim "bob"))%nat
  /\ (0 < String.length "2001-02-03")%nat
  /\ trim "Passw0rd!" = "Passw0rd!"%string
  /\ (8 <= String.length "Passw0rd!")%nat
  /\ 60 <= total "Passw0rd!"
  /\ succeeds (loginSubmit (Some "bob") (Some "Passw0rd!")
                           (Some "2001-02-03")) = true.
Proof.
  assert (Hu : (3 <= String.length (trim "bob"))%nat)
    by (vm_compute; lia).
  assert (Hd : (0 < String.length "2001-02-03")%nat) by (simpl; lia).
  assert (H8 : (8 <= String.length "Passw0rd!")%nat) by (simpl; lia).
  assert (H60 : 60 <= total "Passw0rd!")
    by (apply Qle_bool_iff; vm_compute; reflexivity).
  split; [exact Hu|]. split; [exact Hd|]. split; [reflexivity|].
  split; [exact H8|]. split; [exact H60|].
  exact (shown_60_passes_login "bob" "Passw0rd!" "2001-02-03"
           Hu Hd eq_refl H8 H60).
Defined.

(** With white space at the end the two part: seven characters followed
    by five spaces are displayed with a total of 85, and the submit
    handler, which scores the seven characters, refuses them with 59. *)
Lemma white_space_parts_display_and_login :
  total "abd1!!!     " == 85
  /\ calculatePasswordStrength (trim "abd1!!!     ") == 59
  /\ succeeds (loginSubmit (Some "bob") (Some "abd1!!!     ")
                           (Some "2001-02-03")) = false.
Proof.
  split; [vm_compute; reflexivity|].
  split; vm_compute; reflexivity.
Qed.

End Login.

(** ** The review form *)

Section Review.

Lemma trimStart_app (s t : string) :
  trimStart (s ++ t)
  = match trimStart s with
    | EmptyString => trimStart t
    | String _ _ as r => (r ++ t)%string
    end.
Proof.
  induction s as [|c s IH]; simpl; [reflexivity|].
  destruct (isWhiteSpace c); [exact IH | reflexivity].
Qed.

Lemma trimEnd_app (s t : string) :
  trimEnd t <> EmptyString -> trimEnd (s ++ t) = (s ++ trimEnd t)%string.
Proof.
  intros Ht. induction s as [|c s IH]; simpl; [reflexivity|].
  rewrite IH. destruct (s ++ trimEnd t)%string eqn:E; [|reflexivity].
  destruct s; simpl in E; [contradiction | discriminate].
Qed.

Lemma trimEnd_noWhiteSpace (t : string) :
  noWhiteSpace t = true -> trimEnd t = t.
Proof.
  unfold noWhiteSpace. induction t as [|c t IH]; simpl; [reflexivity|].
  rewrite andb_true_iff, negb_true_iff. intros [Hc Ht].
  rewrite (IH Ht). destruct t; [now rewrite Hc | reflexivity].
Qed.

Lemma trimStart_noWhiteSpace (t : string) :
  noWhiteSpace t = true -> trimStart t = t.
Proof.
  unfold noWhiteSpace. destruct t as [|c t]; simpl; [reflexivity|].
  rewrite andb_true_iff, negb_true_iff. intros [Hc _]. now rewrite Hc.
Qed.

Lemma trimEnd_length (s : string) :
  (String.length (trimEnd s) <= String.length s)%nat.
Proof.
  induction s as [|c s IH]; simpl; [lia|].
  destruct (trimEnd s); [destruct (isWhiteSpace c)|]; simpl in *; lia.
Qed.

(** Characters without white space, put after a text, all count in the
    trimmed length. *)
Lemma trim_app_length (s t : string) :
  noWhiteSpace t = true -> (0 < String.length t)%nat ->
  (String.length (trim s) + String.length t
   <= String.length (trim (s ++ t)))%nat.
Proof.
  intros Ht Hlen. unfold trim. rewrite trimStart_app.
  assert (Hne : trimEnd t <> EmptyString).
  { rewrite (trimEnd_noWhiteSpace t Ht). destruct t; [simpl in Hlen; lia|].
    discriminate. }
  destruct (trimStart s) as [|c r] eqn:E.
  - rewrite (trimStart_noWhiteSpace t Ht), (trimEnd_noWhiteSpace t Ht).
    simpl. lia.
  - rewrite (trimEnd_app (String c r) t Hne), (trimEnd_noWhiteSpace t Ht).
    rewrite length_append.
    pose proof (trimEnd_length (String c r)). lia.
Qed.

Lemma handleReviewSubmit_succeeds (value : string) :
  succeeds (handleReviewSubmit (Some value)) = true
  <-> (10 <= String.length (trim value))%nat.
Proof.
  unfold handleReviewSubmit. cbv zeta.
  destruct (Nat.eqb_spec (String.length (trim value)) 0) as [E | E].
  - cbn. split; [discriminate | lia].
  - destruct (Nat.ltb_spec (String.length (trim value)) 10) as [L | L].
    + cbn. split; [discriminate | lia].
    + cbn. split; [intros _; exact L | reflexivity].
Qed.

Lemma textareaBorderColor_eq (value : string) :
  textareaBorderColor (updateReviewFeedback value)
  = if (10 <=? String.length (trim value))%nat then "#2ed573"%string
    else "#ddd"%string.
Proof.
  unfold updateReviewFeedback. cbv zeta.
  destruct (String.length (trim value) =? 0)%nat;
    [reflexivity|].
  destruct (String.length (trim value) <? 10)%nat; [reflexivity|].
  destruct ((10 <=? String.length (trim value))%nat
            && (String.length (trim value) <=? 50)%nat); [reflexivity|].
  destruct ((50 <? String.length (trim value))%nat
            && (String.length (trim value) <=? 150)%nat); reflexivity.
Qed.

(** X11: the submit handler of the review accepts a text exactly when the
    live feedback has turned the border of the text area green, that is
    when the trimmed text has ten characters at least; nothing bounds the
    length from above. *)
Theorem review_accepted_iff_border_green (value : string) :
  (succeeds (handleReviewSubmit (Some value)) = true
   <-> textareaBorderColor (updateReviewFeedback value) = "#2ed573"%string)
  /\ (succeeds (handleReviewSubmit (Some value)) = true
      <-> (10 <= String.length (trim value))%nat).
Proof.
  split; [|apply handleReviewSubmit_succeeds].
  rewrite handleReviewSubmit_succeeds, textareaBorderColor_eq.
  destruct (Nat.leb_spec 10 (String.length (trim value))) as [L | L].
  - split; [reflexivity | intros _; exact L].
  - split; [lia | discriminate].
Qed.

(** X12: the count of the feedback is right: when it asks for [k] more
    characters, the trimmed text having between 1 and 9 characters and
    [k] being what these lack to 10, typing [k] characters that are not
    white space makes the submit handler accept the review. *)
Theorem review_count_is_enough (value extra : string) :
  (0 < String.length (trim value) < 10)%nat ->
  noWhiteSpace extra = true ->
  String.length extra = (10 - String.length (trim value))%nat ->
  feedbackHTML (updateReviewFeedback value)
  = ("📝 Keep writing... "
     ++ numberToString (Z.of_nat (String.length extra))
     ++ " more characters needed for a meaningful review")%string
  /\ succeeds (handleReviewSubmit (Some (value ++ extra))) = true.
Proof.
  intros [H0 H10] Hws Hlen. split.
  - unfold updateReviewFeedback. cbv zeta.
    destruct (Nat.eqb_spec (String.length (trim value)) 0) as [E | _];
      [lia|].
    destruct (Nat.ltb_spec (String.length (trim value)) 10) as [_ | E];
      [|lia].
    cbn [feedbackHTML]. rewrite Hlen.
    replace (Z.of_nat (10 - String.length (trim value)))
      with (10 - Z.of_nat (String.length (trim value)))%Z by lia.
    reflexivity.
  - apply handleReviewSubmit_succeeds.
    pose proof (trim_app_length value extra Hws ltac:(lia)). lia.
Qed.

(** The hypotheses of X12 hold for a text of four characters between
    spaces and six characters more. *)
Lemma review_count_is_enough_witness :
  (0 < String.length (trim " good ") < 10)%nat
  /\ noWhiteSpace "stuff!" = true
  /\ String.length "stuff!" = (10 - String.length (trim " good "))%nat
  /\ feedbackHTML (updateReviewFeedback " good ")
     = ("📝 Keep writing... "
        ++ numberToString (Z.of_nat (String.length "stuff!"))
        ++ " more characters needed for a meaningful review")%string
  /\ succeeds (handleReviewSubmit (Some (" good " ++ "stuff!"))) = true.
Proof.
  assert (H : (0 < String.length (trim " good ") < 10)%nat)
    by (vm_compute; lia).
  split; [exact H|]. split; [reflexivity|]. split; [reflexivity|].
  exact (review_count_is_enough " good " "stuff!" H eq_refl eq_refl).
Defined.

End Review.

(** ** The mobile menu *)

Section Menu.

Lemma closeMobileMenu_consistent (page : menuPage) :
  menuConsistent (closeMobileMenu page).
Proof. repeat split. Qed.

Lemma clickMenuButton_consistent (page : menuPage) :
  menuConsistent (clickMenuButton page).
Proof.
  unfold clickMenuButton. destruct (menuShow page); repeat split.
Qed.

Lemma menuStep_consistent (page : menuPage) (e : menuEvent) :
  menuConsistent page -> menuConsistent (menuStep page e).
Proof.
  intros H. destruct e; simpl.
  - apply clickMenuButton_consistent.
  - apply closeMobileMenu_consistent.
  - exact H.
  - destruct (menuShow page); [apply closeMobileMenu_consistent | exact H].
  - destruct (menuShow page); [apply closeMobileMenu_consistent | exact H].
Qed.

Lemma menuRun_consistent (events : list menuEvent) (page : menuPage) :
  menuConsistent page -> menuConsistent (menuRun events page).
Proof.
  revert page. induction events as [|e events IH]; intros page H; simpl.
  - exact H.
  - apply IH, menuStep_consistent, H.
Qed.

(** X13: the mobile menu stays consistent.  Once the button or a link of
    the menu has been clicked, whatever the page was before and whatever
    clicks and Escape keys follow, the menu has exactly one of the classes
    [show] and [hidden], the button shows the cross and announces itself
    as expanded exactly when the menu is shown, and the page cannot scroll
    exactly then; a consistent page stays so.  Clicking the button three
    times is clicking it once. *)
Theorem menu_stays_consistent (page : menuPage) (events : list menuEvent) :
  menuConsistent (menuRun events (menuStep page ClickMenuButton))
  /\ menuConsistent (menuRun events (menuStep page ClickMenuLink))
  /\ (menuConsistent page -> menuConsistent (menuRun events page))
  /\ menuStep (menuStep (menuStep page ClickMenuButton) ClickMenuButton)
              ClickMenuButton
     = menuStep page ClickMenuButton.
Proof.
  split; [apply menuRun_consistent, clickMenuButton_consistent|].
  split; [apply menuRun_consistent, closeMobileMenu_consistent|].
  split; [apply menuRun_consistent|].
  simpl. unfold clickMenuButton. destruct (menuShow page); reflexivity.
Qed.

End Menu.

(** ** The dark mode *)

Section Theme.

Lemma themeStep_chosen (choice : bool) (page : themePage) (e : themeEvent) :
  themeChosen choice page ->
  themeChosen (lastChoice choice [e]) (themeStep page e).
Proof.
  intros (Hs & Hb & Ht). destruct e as [d | m]; simpl.
  - rewrite Ht. repeat split.
  - rewrite Hs. destruct choice; simpl; repeat split; assumption.
Qed.

Lemma themeRun_chosen (events : list themeEvent)
      (choice : bool) (page : themePage) :
  themeChosen choice page ->
  themeChosen (lastChoice choice events) (themeRun events page).
Proof.
  revert choice page.
  induction events as [|e events IH]; intros choice page H; simpl.
  - exact H.
  - apply (themeStep_chosen choice page e) in H.
    destruct e as [d | m]; simpl in *; now apply IH.
Qed.

(** X14: once the user has set the check box, the system theme no longer
    changes the page: after any later events the body is dark exactly when
    the last choice of the user was dark, and the stored theme and the
    check box say the same. *)
Theorem system_theme_ignored_after_choice
        (page : themePage) (isDark : bool) (events : list themeEvent) :
  toggleChecked page <> None ->
  themeChosen (lastChoice isDark events)
              (themeRun events (themeStep page (ToggleChange isDark))).
Proof.
  intros Ht. apply themeRun_chosen. simpl.
  destruct (toggleChecked page); [repeat split | contradiction].
Qed.

(** The hypothesis of X14 holds for a light page with a check box, where
    the system turns dark after the user chose light. *)
Lemma system_theme_ignored_after_choice_witness :
  toggleChecked {| storedTheme := None; bodyDark := false;
                   toggleChecked := Some false |} <> None
  /\ themeChosen false
       (themeRun [SystemChange true]
          (themeStep {| storedTheme := None; bodyDark := false;
                        toggleChecked := Some false |}
                     (ToggleChange false))).
Proof.
  assert (H : toggleChecked {| storedTheme := None; bodyDark := false;
                               toggleChecked := Some false |} <> None)
    by discriminate.
  split; [exact H|].
  exact (system_theme_ignored_after_choice _ false [SystemChange true] H).
Defined.

(** X15: the choice survives a reload.  When the user has set the check
    box to [isDark] and the page loads again, with the stored theme kept, a
    body without the class [dark-mode] and a check box that is not checked,
    [setupDarkMode] makes the body dark and checks the box exactly when
    [isDark] holds, whatever the system prefers. *)
Theorem theme_survives_reload
        (page fresh : themePage) (isDark : bool) (prefersDark : option bool) :
  toggleChecked page <> None ->
  storedTheme fresh = storedTheme (themeStep page (ToggleChange isDark)) ->
  bodyDark fresh = false ->
  toggleChecked fresh = Some false ->
  bodyDark (setupDarkMode prefersDark fresh) = isDark
  /\ toggleChecked (setupDarkMode prefersDark fresh) = Some isDark.
Proof.
  intros Ht Hs Hb Hc. simpl in Hs.
  destruct (toggleChecked page); [|contradiction]. simpl in Hs.
  unfold setupDarkMode, savedTheme. rewrite Hs.
  destruct isDark; simpl; [|rewrite Hb, Hc]; try rewrite Hc; split; reflexivity.
Qed.

(** The hypotheses of X15 hold for a user who chose dark where the system
    prefers light. *)
Lemma theme_survives_reload_witness :
  toggleChecked {| storedTheme := None; bodyDark := false;
                   toggleChecked := Some false |} <> None
  /\ storedTheme {| storedTheme := Some "dark"; bodyDark := false;
                    toggleChecked := Some false |}
     = storedTheme (themeStep {| storedTheme := None; bodyDark := false;
                                 toggleChecked := Some false |}
                              (ToggleChange true))
  /\ bodyDark (setupDarkMode (Some false)
                 {| storedTheme := Some "dark"; bodyDark := false;
                    toggleChecked := Some false |}) = true
  /\ toggleChecked (setupDarkMode (Some false)
                      {| storedTheme := Some "dark"; bodyDark := false;
                         toggleChecked := Some false |}) = Some true.
Proof.
  assert (H : toggleChecked {| storedTheme := None; bodyDark := false;
                               toggleChecked := Some false |} <> None)
    by discriminate.
  split; [exact H|]. split; [reflexivity|].
  exact (theme_survives_reload
           {| storedTheme := None; bodyDark := false;
              toggleChecked := Some false |}
           {| storedTheme := Some "dark"; bodyDark := false;
              toggleChecked := Some false |}
           true (Some false) H eq_refl eq_refl eq_refl).
Defined.

End Theme.

(** ** The subtle notifications *)

Section Notifier.

Lemma Set_has_iff (m : string) (s : list string) :
  Set_has m s = true <-> In m s.
Proof.
  unfold Set_has. rewrite existsb_exists. split.
  - intros (x & Hin & E). apply String.eqb_eq in E. now subst x.
  - intros H. exists m. split; [exact H | apply String.eqb_refl].
Qed.

Lemma notifierStart_invariant : notifierInvariant notifierStart.
Proof.
  repeat split; try constructor. intros n [].
Qed.

Lemma show_invariant (message type : string) (s : notifierState) :
  notifierInvariant s ->
  notifierInvariant (showSubtleNotification message type s).
Proof.
  intros (Hset & Hpend & Hmsg & Hid & Hfresh).
  unfold showSubtleNotification.
  destruct (Set_has message (notifications s)) eqn:E.
  - repeat split; assumption.
  - assert (Hnot : ~ In message (visibleMessages s)).
    { rewrite <- Hset. intros H. apply Set_has_iff in H. congruence. }
    unfold notifierInvariant, visibleMessages, Set_add in *.
    cbn [notifications bodyNotifications pendingRemovals nextId].
    rewrite E, !map_app. cbn [map nodeId nodeMessage].
    repeat split.
    + now rewrite Hset.
    + now rewrite Hpend.
    + apply NoDup_app; [exact Hmsg | repeat constructor; intros [] |].
      intros x Hx [<- | []]. contradiction.
    + apply NoDup_app; [exact Hid | repeat constructor; intros [] |].
      intros x Hx [<- | []].
      apply in_map_iff in Hx as (n & E' & Hn).
      apply Hfresh in Hn. lia.
    + intros n Hn. apply in_app_iff in Hn as [Hn | [<- | []]].
      * apply Hfresh in Hn. lia.
      * simpl. lia.
Qed.

Lemma NoDup_map_eq {A B : Type} (f : A -> B) (l : list A) (x y : A) :
  NoDup (map f l) -> In x l -> In y l -> f x = f y -> x = y.
Proof.
  induction l as [|a l IH]; simpl; [contradiction|].
  intros H Hx Hy E. inversion H as [|? ? Hnotin Hnodup]; subst.
  destruct Hx as [-> | Hx], Hy as [-> | Hy].
  - reflexivity.
  - exfalso. apply Hnotin. rewrite E. now apply in_map.
  - exfalso. apply Hnotin. rewrite <- E. now apply in_map.
  - now apply IH.
Qed.

Lemma NoDup_map_filter {A B : Type} (f : A -> B) (keep : A -> bool)
      (l : list A) :
  NoDup (map f l) -> NoDup (map f (filter keep l)).
Proof.
  induction l as [|a l IH]; simpl; [trivial|].
  intros H. inversion H as [|? ? Hnotin Hnodup]; subst.
  destruct (keep a); simpl; [|now apply IH].
  constructor; [|now apply IH].
  intros Hin. apply Hnotin.
  apply in_map_iff in Hin as (x & E & Hx).
  apply filter_In in Hx as [Hx _]. rewrite <- E. now apply in_map.
Qed.

Lemma remove_invariant (id : nat) (message : string) (s : notifierState) :
  notifierInvariant s ->
  In (id, message) (pendingRemovals s) ->
  notifierInvariant (removeNotification id message s).
Proof.
  intros (Hset & Hpend & Hmsg & Hid & Hfresh) Hin.
  rewrite Hpend in Hin. apply in_map_iff in Hin as (n0 & E0 & Hn0).
  injection E0 as Eid Emsg.
  assert (Hsame : forall n, In n (bodyNotifications s) ->
                    negb (nodeId n =? id)%nat
                    = negb (String.eqb message (nodeMessage n))).
  { intros n Hn. f_equal.
    destruct (Nat.eqb_spec (nodeId n) id) as [E | E];
      destruct (String.eqb_spec message (nodeMessage n)) as [E' | E'];
      try reflexivity; exfalso.
    - apply E'. rewrite <- Emsg. f_equal.
      apply (NoDup_map_eq nodeId (bodyNotifications s)); try assumption.
      congruence.
    - apply E. rewrite <- Eid. f_equal.
      apply (NoDup_map_eq nodeMessage (bodyNotifications s));
        try assumption.
      congruence. }
  unfold notifierInvariant, visibleMessages, removeNotification,
    Set_delete in *.
  cbn [notifications bodyNotifications pendingRemovals nextId].
  repeat split.
  - rewrite Hset. clear Hset Hpend Hmsg Hid Hfresh Hn0.
    induction (bodyNotifications s) as [|n l IH]; simpl; [reflexivity|].
    rewrite <- (Hsame n (or_introl eq_refl)).
    destruct (negb (nodeId n =? id)%nat); simpl;
      rewrite IH; try reflexivity; intros x Hx; apply Hsame; now right.
  - rewrite Hpend. clear.
    induction (bodyNotifications s) as [|n l IH]; simpl; [reflexivity|].
    destruct (negb (nodeId n =? id)%nat); simpl; now rewrite IH.
  - now apply NoDup_map_filter.
  - now apply NoDup_map_filter.
  - intros n Hn. apply filter_In in Hn as [Hn _]. now apply Hfresh.
Qed.

Lemma notifierStep_invariant (s : notifierState) (e : notifierEvent) :
  notifierInvariant s -> notifierInvariant (notifierStep s e).
Proof.
  intros H. destruct e as [message type | id]; simpl.
  - now apply show_invariant.
  - destruct (find (fun t => (fst t =? id)%nat) (pendingRemovals s))
      as [[id' message]|] eqn:E; [|exact H].
    apply find_some in E as [Hin Eid]. simpl in Eid.
    apply Nat.eqb_eq in Eid. subst id'. now apply remove_invariant.
Qed.

Lemma notifierRun_invariant (events : list notifierEvent) :
  notifierInvariant (notifierRun events).
Proof.
  unfold notifierRun.
  assert (G : forall s, notifierInvariant s ->
                notifierInvariant (fold_left notifierStep events s)).
  { induction events as [|e events IH]; intros s H; simpl; [exact H|].
    apply IH, notifierStep_invariant, H. }
  apply G, notifierStart_invariant.
Qed.

(** X16: the subtle notifications never show one message twice at a time,
    and the set that prevents it never blocks a message that is not on the
    page: after any sequence of calls of [showSubtleNotification] and of
    timers, the notifications in the body have different messages, the set
    [notifications] holds exactly these messages, and a message that is
    asked for is on the page after the call. *)
Theorem subtle_notifications_are_not_repeated
        (events : list notifierEvent) (message type : string) :
  NoDup (visibleMessages (notifierRun events))
  /\ notifications (notifierRun events)
     = visibleMessages (notifierRun events)
  /\ In message
        (visibleMessages
           (showSubtleNotification message type (notifierRun events))).
Proof.
  destruct (notifierRun_invariant events) as (Hset & _ & Hmsg & _ & _).
  split; [exact Hmsg|]. split; [exact Hset|].
  unfold showSubtleNotification.
  destruct (Set_has message (notifications (notifierRun events))) eqn:E.
  - apply Set_has_iff in E. now rewrite <- Hset.
  - unfold visibleMessages. cbn [bodyNotifications].
    rewrite map_app. apply in_app_iff. right. now left.
Qed.

End Notifier.

(** ** The length terms of the two scorers *)

Section LengthTerms.

(** C2, amended: there are two scorers.  They share the weights of the
    classes and the complexity term; for the length the login scorer adds
    the full weight 20 from 8 characters on and nothing below, and the
    display scorer adds the ramp [min (length / 12 * 20, 20)].  The two
    totals are equal exactly for the empty password and for passwords of
    12 or more characters. *)
Theorem two_scorers_differ_in_length_term (password : string) :
  calculatePasswordStrength password
  == (if (8 <=? String.length password)%nat then 20 else 0)
     + sharedTerms password
  /\ total password
     == JS.Math_min (JS.length password / 12 * 20) 20 + sharedTerms password
  /\ (calculatePasswordStrength password == total password
      <-> (String.length password = 0%nat
           \/ (12 <= String.length password)%nat)).
Proof.
  split; [|split].
  - rewrite calculatePasswordStrength_eq. unfold sharedTerms, award at 1.
    cbn [weight requirements.length requirements.complexity].
    destruct (8 <=? String.length password)%nat; ring.
  - rewrite total_eq. unfold sharedTerms, lengthScore.
    cbn [weight requirements.length requirements.complexity]. ring.
  - apply scorers_agree_iff.
Qed.

End LengthTerms.

(** ** The complexity in binary64 against its specification *)

Section ComplexityBinary64.

Set Warnings "-inexact-float".








End ComplexityBinary64.
